(** * Session client of the Astra mini-app storefront

    A shallow embedding of the client script ([src/unnamed/part_000], and
    the older [src/miniapp/app.js], whose [auth] is the same text and
    whose pack buttons send data to the bot instead of opening an
    invoice): the module-level session token, the DOM fields the script
    writes, local storage, and the three asynchronous operations [auth],
    [refreshBalance] and [createInvoice], with the payment-status handlers
    that [createInvoice] hands to the host platform.

    The script is JavaScript: values are untyped, tests are truthiness
    tests, exceptions are caught by [try]/[catch] and state written before
    a throw stays written.  The embedding keeps all three.  Putting a
    value of an answer into a template literal can throw as well (an
    object with a [toString] field of its own has no text), and does so
    here, inside or outside a [try] as the script has it.  Texts are kept
    as UTF-8 bytes and cut where JavaScript cuts them, by UTF-16 units.

    What is taken for granted:
    - the elements the script looks up exist, so writing to them does not
      throw;
    - the user id the host reports is Telegram's number, or absent;
    - an async function is run to its end in one piece: two operations in
      flight at once are not interleaved.  In the browser two balance
      refreshes started one after the other may be answered in either
      order, and the one answered last writes the balance; here it is
      always the one started last;
    - the host and the network are given from outside ([Env]): what
      [tg.openInvoice] returns, what the n-th request is answered, and so
      on.  Theorems quantify over all of them. *)

From Stdlib Require Import Ascii String.
From stdpp Require Import gmap strings list fin_maps pretty.

Set Warnings "-register-all".
Local Open Scope string_scope.

(** ** JavaScript values *)

(** A value as [JSON.parse] builds it, plus [undefined] (what reading a
    missing property gives).  Numbers are kept abstract: the script only
    tests them for truthiness and converts them to text. *)
Inductive JsValue (Num : Type) : Type :=
  | JUndefined
  | JNull
  | JBool (b : bool)
  | JNum (n : Num)
  | JStr (s : string)
  | JArr (items : list (JsValue Num))
  | JObj (fields : gmap string (JsValue Num)).

Arguments JUndefined {Num}.
Arguments JNull {Num}.
Arguments JBool {Num} b.
Arguments JNum {Num} n.
Arguments JStr {Num} s.
Arguments JArr {Num} items.
Arguments JObj {Num} fields.

(** A thrown value, seen through the only expression the script applies
    to it, [e?.message || e] inside a template literal: its [message]
    (empty when absent or falsy) and its own conversion to text. *)
Record JsError : Type := mkError {
  err_message : string;
  err_text : string
}.

(** What the JavaScript engine contributes: the behaviour of numbers and
    the [TypeError]s it raises on a bad property read, on a bad call, and
    on converting to text an object that has no usable [toString]. *)
Class Engine (Num : Type) : Type := {
  num_truthy : Num -> bool;
  num_str : Num -> string;
  null_read : string -> JsError;
  not_function : string -> JsError;
  unprintable : JsError
}.

Section Values.
Context {Num : Type} `{Engine Num}.

(** [!!v] *)
Definition truthy (v : JsValue Num) : bool :=
  match v with
  | JUndefined | JNull => false
  | JBool b => b
  | JNum n => num_truthy n
  | JStr s => negb (String.eqb s "")
  | JArr _ | JObj _ => true
  end.

(** Whether [`${v}`] gives a text.  An object built by [JSON.parse] prints
    through [Object.prototype.toString] unless it has a field named
    [toString] of its own: that field is no function, [valueOf] gives back
    the object, and the conversion throws.  An array prints its items. *)
Fixpoint printable (v : JsValue Num) : bool :=
  match v with
  | JArr items => forallb printable items
  | JObj fields =>
      match fields !! "toString" with
      | Some _ => false
      | None => true
      end
  | _ => true
  end.

(** [`${v}`], for a value that can be printed. *)
Fixpoint to_str (v : JsValue Num) : string :=
  match v with
  | JUndefined => "undefined"
  | JNull => "null"
  | JBool b => if b then "true" else "false"
  | JNum n => num_str n
  | JStr s => s
  | JArr items =>
      String.concat ","
        (List.map (fun x => match x with
                            | JUndefined | JNull => ""
                            | _ => to_str x
                            end) items)
  | JObj _ => "[object Object]"
  end.

(** [null] or [undefined] *)
Definition nullish (v : JsValue Num) : bool :=
  match v with
  | JUndefined | JNull => true
  | _ => false
  end.

(** What reading property [k] of a value other than [null] and
    [undefined] gives: the field of an object, [undefined] when it is
    missing or when the value is not an object.  (None of the names the
    script reads is a built-in property of a string, a number or an
    array.) *)
Definition field (v : JsValue Num) (k : string) : JsValue Num :=
  match v with
  | JObj fields => default JUndefined (fields !! k)
  | _ => JUndefined
  end.

(** [a || b] on values *)
Definition or_else (a b : JsValue Num) : JsValue Num :=
  if truthy a then a else b.

(** [`${v || d}`] with a string default *)
Definition str_or (v : JsValue Num) (d : string) : string :=
  if truthy v then to_str v else d.

(** [`${e?.message || e}`] *)
Definition errText (e : JsError) : string :=
  if String.eqb (err_message e) "" then err_text e else err_message e.

End Values.

(** ** The world outside the script *)

(** The body of an HTTP response: reading it may fail; otherwise it is a
    text together with what [JSON.parse] makes of that text. *)
Inductive Body (Num : Type) : Type :=
  | BodyUnreadable (e : JsError)
  | BodyText (raw : string) (parsed : JsError + JsValue Num).

Arguments BodyUnreadable {Num} e.
Arguments BodyText {Num} raw parsed.

Record Response (Num : Type) : Type := mkResponse {
  resp_status : Num;
  resp_body : Body Num
}.

Arguments mkResponse {Num} _ _.
Arguments resp_status {Num} _.
Arguments resp_body {Num} _.

Inductive FetchOutcome (Num : Type) : Type :=
  | FetchRejects (e : JsError)
  | FetchResponds (r : Response Num).

Arguments FetchRejects {Num} e.
Arguments FetchResponds {Num} r.

(** What [tg.openInvoice(link, cb)] does when it is called: it throws, or
    it returns something that is or is not a thenable. *)
Inductive OpenOutcome : Type :=
  | OpenThrows (e : JsError)
  | OpenReturns (thenable : bool).

(** [window.Telegram.WebApp] *)
Record Host (Num : Type) : Type := mkHost {
  initData : option string;
  user_id : JsValue Num;
  ready : option JsError;
  expand : option JsError;
  openInvoice : option (JsValue Num -> OpenOutcome);
  openTelegramLink : JsValue Num -> option JsError
}.

Arguments mkHost {Num} _ _ _ _ _ _.
Arguments initData {Num} _.
Arguments user_id {Num} _.
Arguments ready {Num} _.
Arguments expand {Num} _.
Arguments openInvoice {Num} _.
Arguments openTelegramLink {Num} _.

(** The environment of one page load: the host object ([tg], [null] when
    the page is not opened inside Telegram), the answer of the network to
    the n-th request the page issues, and whether [localStorage.setItem]
    throws. *)
Record Env (Num : Type) : Type := mkEnv {
  tg : option (Host Num);
  network : nat -> FetchOutcome Num;
  setItem_throws : option JsError
}.

Arguments mkEnv {Num} _ _ _.
Arguments tg {Num} _.
Arguments network {Num} _ _.
Arguments setItem_throws {Num} _.

(** ** Page state *)

(** The two ways the host can report a payment status: the callback
    passed to [openInvoice], and the promise it may return. *)
Inductive Channel : Type := Callback | Promise.

Global Instance Channel_eq_dec : EqDecision Channel.
Proof. solve_decision. Defined.

(** What the page does to the outside, in order. [EvRefreshBalance] marks
    a call of [refreshBalance] (whether or not it goes on to the
    network). *)
Inductive Event (Num : Type) : Type :=
  | EvFetch (url : string) (body : list (string * JsValue Num))
  | EvReady
  | EvExpand
  | EvOpenInvoice (link : JsValue Num)
  | EvOpenTelegramLink (link : JsValue Num)
  | EvSendData (payload : list (string * JsValue Num))
  | EvClose
  | EvRefreshBalance.

Arguments EvFetch {Num} url body.
Arguments EvReady {Num}.
Arguments EvExpand {Num}.
Arguments EvOpenInvoice {Num} link.
Arguments EvOpenTelegramLink {Num} link.
Arguments EvSendData {Num} payload.
Arguments EvClose {Num}.
Arguments EvRefreshBalance {Num}.

(** One row of [packsEl]: its markup and the pack key its button buys. *)
Record PackRow (Num : Type) : Type := mkRow {
  row_html : string;
  row_key : JsValue Num
}.

Arguments mkRow {Num} _ _.
Arguments row_html {Num} _.
Arguments row_key {Num} _.

Record State (Num : Type) : Type := mkState {
  sessionToken : JsValue Num;          (* let sessionToken *)
  balanceText : string;                (* balanceEl.textContent *)
  refLinkValue : string;               (* refLinkEl.value *)
  packs : list (PackRow Num);          (* children of packsEl *)
  errorHidden : bool;                  (* errorBox has class "hidden" *)
  supportHref : string;                (* supportLink.href *)
  diagTg : string;                     (* diagTg.textContent *)
  diagUser : string;                   (* diagUser.textContent *)
  diagErr : string;                    (* diagErr.textContent *)
  storage : gmap string string;        (* localStorage *)
  listeners : list Channel;            (* status handlers held by the host *)
  requests : nat;                      (* number of fetch calls so far *)
  log : list (Event Num)
}.

Arguments mkState {Num} _ _ _ _ _ _ _ _ _ _ _ _ _.
Arguments sessionToken {Num} _.
Arguments balanceText {Num} _.
Arguments refLinkValue {Num} _.
Arguments packs {Num} _.
Arguments errorHidden {Num} _.
Arguments supportHref {Num} _.
Arguments diagTg {Num} _.
Arguments diagUser {Num} _.
Arguments diagErr {Num} _.
Arguments storage {Num} _.
Arguments listeners {Num} _.
Arguments requests {Num} _.
Arguments log {Num} _.

(** ** Running the script: state, and exceptions that keep the state *)

Inductive Result (A : Type) : Type :=
  | Returns (a : A)
  | Throws (e : JsError).

Arguments Returns {A} a.
Arguments Throws {A} e.

(** A computation runs from a page state to a result and the page state
    it leaves; a throw leaves the writes made before it. *)
Definition M (Num A : Type) : Type := State Num -> Result A * State Num.

Definition ret {Num A} (a : A) : M Num A := fun st => (Returns a, st).

Definition throw {Num A} (e : JsError) : M Num A := fun st => (Throws e, st).

Definition bind {Num A B} (m : M Num A) (k : A -> M Num B) : M Num B :=
  fun st =>
    match m st with
    | (Returns a, st1) => k a st1
    | (Throws e, st1) => (Throws e, st1)
    end.

(** [try { m } catch (e) { h e }] *)
Definition try_catch {Num A} (m : M Num A) (h : JsError -> M Num A) : M Num A :=
  fun st =>
    match m st with
    | (Returns a, st1) => (Returns a, st1)
    | (Throws e, st1) => h e st1
    end.

(** Calling an async function without awaiting it: the caller goes on
    whatever becomes of the promise.  The callee is run to its end first,
    so calls made one after the other also finish in that order. *)
Definition detached {Num A} (m : M Num A) : M Num unit :=
  fun st => (Returns tt, snd (m st)).

Definition modify {Num} (f : State Num -> State Num) : M Num unit :=
  fun st => (Returns tt, f st).

Definition gets {Num A} (f : State Num -> A) : M Num A :=
  fun st => (Returns (f st), st).

Declare Scope js_scope.
Delimit Scope js_scope with js.
Notation "x <- m ;; k" := (bind m (fun x => k))
  (at level 100, m at next level, k at level 200, right associativity) : js_scope.
Notation "m ;; k" := (bind m (fun _ => k))
  (at level 100, k at level 200, right associativity) : js_scope.
Local Open Scope js_scope.

Section Setters.
Context {Num : Type}.
Implicit Type st : State Num.

Definition with_sessionToken (v : JsValue Num) st : State Num :=
  mkState v (balanceText st) (refLinkValue st) (packs st) (errorHidden st)
    (supportHref st) (diagTg st) (diagUser st) (diagErr st) (storage st)
    (listeners st) (requests st) (log st).

Definition with_balanceText (v : string) st : State Num :=
  mkState (sessionToken st) v (refLinkValue st) (packs st) (errorHidden st)
    (supportHref st) (diagTg st) (diagUser st) (diagErr st) (storage st)
    (listeners st) (requests st) (log st).

Definition with_refLinkValue (v : string) st : State Num :=
  mkState (sessionToken st) (balanceText st) v (packs st) (errorHidden st)
    (supportHref st) (diagTg st) (diagUser st) (diagErr st) (storage st)
    (listeners st) (requests st) (log st).

Definition with_packs (v : list (PackRow Num)) st : State Num :=
  mkState (sessionToken st) (balanceText st) (refLinkValue st) v (errorHidden st)
    (supportHref st) (diagTg st) (diagUser st) (diagErr st) (storage st)
    (listeners st) (requests st) (log st).

Definition with_errorHidden (v : bool) st : State Num :=
  mkState (sessionToken st) (balanceText st) (refLinkValue st) (packs st) v
    (supportHref st) (diagTg st) (diagUser st) (diagErr st) (storage st)
    (listeners st) (requests st) (log st).

Definition with_supportHref (v : string) st : State Num :=
  mkState (sessionToken st) (balanceText st) (refLinkValue st) (packs st)
    (errorHidden st) v (diagTg st) (diagUser st) (diagErr st) (storage st)
    (listeners st) (requests st) (log st).

Definition with_diag (t u : string) st : State Num :=
  mkState (sessionToken st) (balanceText st) (refLinkValue st) (packs st)
    (errorHidden st) (supportHref st) t u (diagErr st) (storage st)
    (listeners st) (requests st) (log st).

Definition with_diagErr (v : string) st : State Num :=
  mkState (sessionToken st) (balanceText st) (refLinkValue st) (packs st)
    (errorHidden st) (supportHref st) (diagTg st) (diagUser st) v (storage st)
    (listeners st) (requests st) (log st).

Definition with_storage (v : gmap string string) st : State Num :=
  mkState (sessionToken st) (balanceText st) (refLinkValue st) (packs st)
    (errorHidden st) (supportHref st) (diagTg st) (diagUser st) (diagErr st) v
    (listeners st) (requests st) (log st).

Definition with_listeners (v : list Channel) st : State Num :=
  mkState (sessionToken st) (balanceText st) (refLinkValue st) (packs st)
    (errorHidden st) (supportHref st) (diagTg st) (diagUser st) (diagErr st)
    (storage st) v (requests st) (log st).

Definition with_requests (v : nat) st : State Num :=
  mkState (sessionToken st) (balanceText st) (refLinkValue st) (packs st)
    (errorHidden st) (supportHref st) (diagTg st) (diagUser st) (diagErr st)
    (storage st) (listeners st) v (log st).

Definition with_log (v : list (Event Num)) st : State Num :=
  mkState (sessionToken st) (balanceText st) (refLinkValue st) (packs st)
    (errorHidden st) (supportHref st) (diagTg st) (diagUser st) (diagErr st)
    (storage st) (listeners st) (requests st) v.

(** Record an outside effect. *)
Definition emit (ev : Event Num) : M Num unit :=
  modify (fun st => with_log (log st ++ [ev]) st).

End Setters.

(** ** Constants of the script *)

Definition API_BASE_URL : string := "https://api.astrabotai.online".

(** [s.replace(/\/+$/, "")]: drop the slashes that end [s]. *)
Fixpoint strip_trailing_slashes (s : string) : string :=
  match s with
  | EmptyString => EmptyString
  | String c rest =>
      match strip_trailing_slashes rest with
      | EmptyString => if Ascii.eqb c "/"%char then EmptyString else String c EmptyString
      | rest' => String c rest'
      end
  end.

Definition API : string := strip_trailing_slashes API_BASE_URL.

(** [n] slashes. *)
Fixpoint slashes (n : nat) : string :=
  match n with
  | O => EmptyString
  | S n' => String "/"%char (slashes n')
  end.

Definition SESSION_KEY : string := "astra_session".

(** The diagnostic line for a string: [`error: ${text || "—"}`]. *)
Definition diag_line (text : string) : string :=
  "error: " ++ (if String.eqb text "" then "—" else text).

(** The balance line: [`${balance} раскладов`]. *)
Definition balance_line (b : string) : string := b ++ " раскладов".

(** ** Cutting a text as JavaScript counts it *)

(** Texts are kept as UTF-8 bytes; JavaScript counts UTF-16 units: one
    for a character of up to three bytes, two for one of four. *)
Definition char_bytes (c : ascii) : nat :=
  let b := N_of_ascii c in
  if (b <? 192)%N then 1 else if (b <? 224)%N then 2 else if (b <? 240)%N then 3 else 4.

Definition char_units (c : ascii) : nat :=
  if (N_of_ascii c <? 240)%N then 1 else 2.

(** The first half of the surrogate pair of a four-byte character that
    starts with bytes [b0 b1 b2], written as the three bytes a lone
    surrogate takes. *)
Definition high_surrogate (b0 b1 b2 : ascii) : string :=
  let u := (N.land (N_of_ascii b0) 7 * 256 + N.land (N_of_ascii b1) 63 * 4
            + N.land (N_of_ascii b2 / 16) 3)%N in
  let high := (55232 + u)%N in
  String (ascii_of_N 237)
    (String (ascii_of_N (128 + N.land (high / 64) 63))
       (String (ascii_of_N (128 + N.land high 63)) EmptyString)).

(** The first [n] units of a text; [pending] bytes of the character being
    copied are still to come.  A cut inside a pair keeps its first half. *)
Fixpoint slice_units (n pending : nat) (s : string) : string :=
  match s with
  | EmptyString => EmptyString
  | String c rest =>
      match pending with
      | S p => String c (slice_units n p rest)
      | O =>
          if Nat.leb (char_units c) n
          then String c (slice_units (n - char_units c) (char_bytes c - 1) rest)
          else
            match n, rest with
            | 1, String b1 (String b2 _) => high_surrogate c b1 b2
            | _, _ => EmptyString
            end
      end
  end.

(** The length of a text in units. *)
Fixpoint units (pending : nat) (s : string) : nat :=
  match s with
  | EmptyString => 0
  | String c rest =>
      match pending with
      | S p => units p rest
      | O => char_units c + units (char_bytes c - 1) rest
      end
  end.

(** [s.slice(0, n)] and [s.length] *)
Definition js_slice (n : nat) (s : string) : string := slice_units n 0 s.

Definition js_length (s : string) : nat := units 0 s.

(** ** The script *)

Section Client.
Context {Num : Type} `{Engine Num}.
Variable env : Env Num.

Local Abbreviation Value := (JsValue Num).
Local Abbreviation Act := (M Num).

(** [v.k]: a [TypeError] on [null] and [undefined]. *)
Definition prop (v : Value) (k : string) : Act Value :=
  if nullish v then throw (null_read k) else ret (field v k).

(** [`${v}`]: the text of [v], or the engine's [TypeError]. *)
Definition print (v : Value) : Act string :=
  if printable v then ret (to_str v) else throw unprintable.

(** [fetch(url, {method: "POST", ..., body: JSON.stringify(body)})],
    awaited: the request goes out, then the network answers. *)
Definition fetch (url : string) (body : list (string * Value)) : Act (Response Num) :=
  n <- gets requests ;;
  modify (with_requests (S n)) ;;
  emit (EvFetch url body) ;;
  match network env n with
  | FetchRejects e => throw e
  | FetchResponds r => ret r
  end.

(** [await resp.json()] *)
Definition json (resp : Response Num) : Act Value :=
  match resp_body resp with
  | BodyUnreadable e => throw e
  | BodyText _ (inl e) => throw e
  | BodyText _ (inr data) => ret data
  end.

(** A call of a host function that returns nothing of interest. *)
Definition host_call (ev : Event Num) (outcome : option JsError) : Act unit :=
  emit ev ;;
  match outcome with
  | Some e => throw e
  | None => ret tt
  end.

(** [tg.initData], [undefined] when the host does not supply it. *)
Definition initData_value (t : Host Num) : Value :=
  from_option JStr JUndefined (initData t).

(** [setDiag()].  The user id is the host's own value, the number
    Telegram gives or nothing: it is printed as it is. *)
Definition setDiag : Act unit :=
  let tgAvailable := match tg env with Some _ => true | None => false end in
  let userId := match tg env with
                | Some t => str_or (user_id t) "—"
                | None => "—"
                end in
  modify (with_diag ("tg available: " ++ (if tgAvailable then "yes" else "no"))
                    ("user id: " ++ userId)).

(** [setError(text)]: [text] is tested for truthiness as a value, then
    printed into the line. *)
Definition setError (text : Value) : Act unit :=
  line <- print (or_else text (JStr "—")) ;;
  modify (with_diagErr ("error: " ++ line)).

(** [showError()] *)
Definition showError : Act unit :=
  modify (with_errorHidden false).

(** [refreshBalance()] *)
Definition refreshBalance : Act unit :=
  emit EvRefreshBalance ;;
  tok <- gets sessionToken ;;
  if negb (truthy tok) then ret tt else
  try_catch
    (resp <- fetch (API ++ "/api/balance") [("session", tok)] ;;
     data <- json resp ;;
     ok <- prop data "ok" ;;
     if truthy ok then
       balance <- prop data "balance" ;;
       shown <- print balance ;;
       modify (with_balanceText (balance_line shown))
     else ret tt)
    (fun e => setError (JStr ("balance refresh failed: " ++ errText e))).

(** The status handler of [createInvoice]; the script writes it twice,
    as the callback of [openInvoice] and as the [then] of its result. *)
Definition onStatus (status : string) : Act unit :=
  if String.eqb status "paid" then
    detached refreshBalance
  else if String.eqb status "cancelled" || String.eqb status "failed" then
    setError (JStr ("invoice " ++ status)) ;;
    showError
  else ret tt.

(** [tg.openTelegramLink(link)]; [tg] itself may be [null]. *)
Definition open_link (link : Value) : Act unit :=
  match tg env with
  | None => throw (null_read "openTelegramLink")
  | Some t => host_call (EvOpenTelegramLink link) (openTelegramLink t link)
  end.

(** The inner [try] block of [createInvoice]: open the invoice with the
    status callback, and hook the result when it is a thenable. *)
Definition open_invoice (opener : Value -> OpenOutcome) (link : Value) : Act unit :=
  emit (EvOpenInvoice link) ;;
  match opener link with
  | OpenThrows e => throw e
  | OpenReturns thenable =>
      modify (fun st => with_listeners (listeners st ++ [Callback]) st) ;;
      if thenable then
        modify (fun st => with_listeners (listeners st ++ [Promise]) st)
      else ret tt
  end.

(** [createInvoice(packKey)] *)
Definition createInvoice (packKey : Value) : Act unit :=
  tok <- gets sessionToken ;;
  if negb (truthy tok) then
    setError (JStr "no session") ;;
    showError
  else
  try_catch
    (resp <- fetch (API ++ "/api/invoice") [("session", tok); ("pack_key", packKey)] ;;
     data <- json resp ;;
     ok <- prop data "ok" ;;
     (* [data] is not null here: reading [invoice_link] cannot throw, and
        gives the same value each time the script reads it *)
     link <- prop data "invoice_link" ;;
     if negb (truthy ok) || negb (truthy link) then
       message <- prop data "message" ;;
       setError (or_else message (JStr "invoice failed")) ;;
       showError
     else
       match tg env with
       | None => throw (null_read "openInvoice")
       | Some t =>
           match openInvoice t with
           | None => open_link link
           | Some opener =>
               try_catch (open_invoice opener link)
                 (fun e =>
                    setError (JStr ("openInvoice failed: " ++ errText e)) ;;
                    showError ;;
                    open_link link)
           end
       end)
    (fun e =>
       setError (JStr ("invoice error: " ++ errText e)) ;;
       showError).

(** The host reports [status] through channel [c]; a handler runs only
    if the script attached one there. *)
Definition deliver (c : Channel) (status : string) : Act unit :=
  ls <- gets listeners ;;
  if bool_decide (c ∈ ls) then onStatus status else ret tt.


(** One row of [renderPacks]. *)
Definition renderRow (p : Value) : Act unit :=
  spreads <- prop p "spreads" ;;
  spreads_text <- print spreads ;;
  stars <- prop p "stars" ;;
  stars_text <- print stars ;;
  key <- prop p "key" ;;
  let html := "<div>" ++ spreads_text ++ " раскладов</div><div>"
              ++ stars_text ++ " ⭐</div>" in
  modify (fun st => with_packs (packs st ++ [mkRow html key]) st).

Fixpoint renderRows (items : list Value) : Act unit :=
  match items with
  | [] => ret tt
  | p :: rest => renderRow p ;; renderRows rest
  end.

(** [renderPacks(packs)] *)
Definition renderPacks (ps : Value) : Act unit :=
  modify (with_packs []) ;;
  match ps with
  | JArr items => renderRows items
  | JUndefined | JNull => throw (null_read "forEach")
  | _ => throw (not_function "packs.forEach")
  end.

(** The click handler of a pack button ([part_000]). *)
Definition click_pack (row : PackRow Num) : Act unit :=
  match tg env with
  | Some _ => detached (createInvoice (row_key row))
  | None => ret tt
  end.

(** The click handler of a pack button in [miniapp/app.js]. *)
Definition click_pack_miniapp (row : PackRow Num) : Act unit :=
  match tg env with
  | Some _ =>
      emit (EvSendData [("action", JStr "buy_pack"); ("pack", row_key row)]) ;;
      emit EvClose
  | None => ret tt
  end.

(** [localStorage.setItem(key, value)] inside [try {} catch {}]: the
    value is stored as text; a value that cannot be printed, or a store
    that throws, leaves storage as it is. *)
Definition setItem_quiet (key : string) (value : Value) : Act unit :=
  try_catch
    (text <- print value ;;
     match setItem_throws env with
     | Some e => throw e
     | None => modify (fun st => with_storage (<[key := text]> (storage st)) st)
     end)
    (fun _ => ret tt).

(** The [catch] of the parse block of [auth]. *)
Definition bad_json (resp : Response Num) (rawText : string) (e : JsError) : Act unit :=
  let status := if num_truthy (resp_status resp)
                then num_str (resp_status resp) else "unknown" in
  let preview := if String.eqb rawText "" then "empty"
                 else js_slice 200 rawText in
  setError (JStr ("bad json (status " ++ status ++ "): " ++ errText e
                  ++ "; preview: " ++ preview)) ;;
  showError.

(** [auth()] from the point where [data] is parsed. *)
Definition auth_data (data : Value) : Act unit :=
  ok <- prop data "ok" ;;
  if negb (truthy ok) then
    message <- prop data "message" ;;
    msg <- (if truthy message
            then text <- print message ;; ret (" (" ++ text ++ ")")
            else ret "") ;;
    error <- prop data "error" ;;
    code <- print (or_else error (JStr "auth_failed")) ;;
    setError (JStr (code ++ msg)) ;;
    showError
  else
    session <- prop data "session" ;;
    modify (with_sessionToken (or_else session JNull)) ;;
    tok <- gets sessionToken ;;
    (if truthy tok then setItem_quiet SESSION_KEY tok else ret tt) ;;
    balance <- prop data "balance" ;;
    shown <- print balance ;;
    modify (with_balanceText (balance_line shown)) ;;
    ref_link <- prop data "ref_link" ;;
    link <- print (or_else ref_link (JStr "—")) ;;
    modify (with_refLinkValue link) ;;
    packages <- prop data "packages" ;;
    renderPacks (or_else packages (JArr [])) ;;
    support_link <- prop data "support_link" ;;
    if truthy support_link
    then href <- print support_link ;; modify (with_supportHref href)
    else ret tt.

(** [auth()] *)
Definition auth : Act unit :=
  setDiag ;;
  match tg env with
  | None => showError
  | Some t =>
      if negb (truthy (initData_value t)) then showError
      else
        try_catch
          (host_call EvReady (ready t) ;; host_call EvExpand (expand t))
          (fun e => setError (JStr ("tg init failed: " ++ errText e))) ;;
        fetched <- try_catch
          (resp <- fetch (API_BASE_URL ++ "/api/auth")
                     [("initData", initData_value t)] ;;
           ret (Some resp))
          (fun e =>
             setError (JStr ("fetch auth failed: " ++ errText e)) ;;
             showError ;;
             ret None) ;;
        match fetched with
        | None => ret tt
        | Some resp =>
            match resp_body resp with
            | BodyUnreadable e => bad_json resp "" e
            | BodyText rawText (inl e) => bad_json resp rawText e
            | BodyText _ (inr data) => auth_data data
            end
        end
  end.

(** The page as the script leaves it before [auth()] runs: the token is
    [null], nothing has been sent, no handler is attached.  The DOM
    texts are those of the HTML page and local storage is what earlier
    visits left. *)
Definition boot (page : State Num) (stored : gmap string string) : State Num :=
  with_sessionToken JNull
    (with_storage stored
       (with_listeners [] (with_requests 0 (with_log [] page)))).

(** Loading the page: the script body, then [auth()]. *)
Definition startup (page : State Num) (stored : gmap string string) : State Num :=
  snd (auth (boot page stored)).

(** ** What can happen on the page *)

(** The script calls [auth()] when it loads; afterwards the page reacts to
    clicks on pack buttons and to payment statuses from the host.  Direct
    calls of [refreshBalance] and [createInvoice] are listed too, so that
    a statement about every run covers every way of reaching them. *)
Inductive Action : Type :=
  | ActAuth
  | ActRefresh
  | ActInvoice (packKey : Value)
  | ActClick (i : nat)
  | ActDeliver (c : Channel) (status : string).

Definition perform (a : Action) : Act unit :=
  match a with
  | ActAuth => auth
  | ActRefresh => detached refreshBalance
  | ActInvoice packKey => detached (createInvoice packKey)
  | ActClick i =>
      rows <- gets packs ;;
      match rows !! i with
      | Some row => click_pack row
      | None => ret tt
      end
  | ActDeliver c status => deliver c status
  end.

Definition run (acts : list Action) (st : State Num) : State Num :=
  fold_left (fun st a => snd (perform a st)) acts st.

Definition is_auth (a : Action) : bool :=
  match a with
  | ActAuth => true
  | _ => false
  end.

(** Calls of [refreshBalance] recorded in a log. *)
Definition is_refresh (ev : Event Num) : bool :=
  match ev with
  | EvRefreshBalance => true
  | _ => false
  end.

Definition refresh_calls (l : list (Event Num)) : nat :=
  length (List.filter is_refresh l).


(** The backend granted an invoice for the next request of [st]: the
    answer parses, its [ok] is truthy and [invoice_link] is [link], a
    truthy value. *)
Definition invoice_granted (st : State Num) (link : Value) : Prop :=
  exists r raw data,
    network env (requests st) = FetchResponds r /\
    resp_body r = BodyText raw (inr data) /\
    truthy (field data "ok") = true /\
    field data "invoice_link" = link /\
    truthy link = true.

(** The next request of [st] is answered with a body that parses to
    [data]. *)
Definition answered (st : State Num) (data : Value) : Prop :=
  exists r raw,
    network env (requests st) = FetchResponds r /\
    resp_body r = BodyText raw (inr data).

(** The next request of [st] fails in transport or in parsing, with [e]:
    the request is rejected, the body cannot be read, it is not JSON, or
    it is the JSON [null], whose [ok] cannot be read. *)
Definition transport_failure (st : State Num) (e : JsError) : Prop :=
  match network env (requests st) with
  | FetchRejects e' => e = e'
  | FetchResponds r =>
      match resp_body r with
      | BodyUnreadable e' => e = e'
      | BodyText _ (inl e') => e = e'
      | BodyText _ (inr data) => nullish data = true /\ e = null_read "ok"
      end
  end.

(** Every answer of the backend carries a [session] that is a string, or
    none: the shape the interface gives to [/api/auth]. *)
Definition session_typed : Prop :=
  forall n r raw data,
    network env n = FetchResponds r ->
    resp_body r = BodyText raw (inr data) ->
    nullish (field data "session") = true \/ exists s, field data "session" = JStr s.

End Client.

(** ** Reasoning about runs *)

Section Logic.
Context {Num : Type} `{Engine Num}.

(** Two pages that differ at most in local storage. *)
Definition same_but_storage (st st' : State Num) : Prop :=
  with_storage ∅ st = with_storage ∅ st'.

(** [m] never reads local storage: from pages that differ only there it
    does the same and leaves pages that differ only there. *)
Definition blind {A} (m : M Num A) : Prop :=
  forall st st', same_but_storage st st' ->
    fst (m st) = fst (m st') /\ same_but_storage (snd (m st)) (snd (m st')).

(** The token is [null] or truthy: it is never a falsy value other than
    [null], the empty string in particular. *)
Definition token_ok (v : JsValue Num) : Prop :=
  v = JNull \/ truthy v = true.

(** The token is [null] or a string that is not empty. *)
Definition token_string (v : JsValue Num) : Prop :=
  v = JNull \/ exists s, v = JStr s /\ s <> "".

(** A request of [refreshBalance] or [createInvoice] in the log: a fetch
    whose body starts with the [session] field. *)
Definition guarded_request (ev : Event Num) (tok : JsValue Num) : Prop :=
  exists url rest, ev = EvFetch url (("session", tok) :: rest).

(** Every request to a guarded endpoint went out with a truthy token. *)
Definition credentials_ok (l : list (Event Num)) : Prop :=
  forall ev tok, In ev l -> guarded_request ev tok -> truthy tok = true.

(** The markup and key of the row [renderPacks] builds for pack [p]. *)
Definition row_of (p : JsValue Num) : PackRow Num :=
  mkRow ("<div>" ++ to_str (field p "spreads") ++ " раскладов</div><div>"
         ++ to_str (field p "stars") ++ " ⭐</div>")
        (field p "key").

(** A pack [renderPacks] can show: not [null], with a quantity and a
    price that can be printed. *)
Definition pack_ok (p : JsValue Num) : Prop :=
  nullish p = false /\
  printable (field p "spreads") = true /\
  printable (field p "stars") = true.

Variable env : Env Num.

(** The request [createInvoice] sends. *)
Definition invoice_request (st : State Num) (packKey : JsValue Num) : Event Num :=
  EvFetch (API ++ "/api/invoice") [("session", sessionToken st); ("pack_key", packKey)].

(** Local storage after an auth answered by [data] with a truthy [ok]:
    the session is written under its key when it is truthy and
    [setItem] does not throw. *)
Definition stored_after (data : JsValue Num) (stored : gmap string string) :
  gmap string string :=
  if truthy (field data "session") && printable (field data "session") then
    match setItem_throws env with
    | Some _ => stored
    | None => <[SESSION_KEY := to_str (field data "session")]> stored
    end
  else stored.

(** The three facts every run keeps. *)
Definition run_invariant (st : State Num) : Prop :=
  token_ok (sessionToken st) /\
  (session_typed env -> token_string (sessionToken st)) /\
  credentials_ok (log st).

End Logic.

(** ** The rest of the page: support link, copy button, older pack buttons *)

(** What the copy button shows and has done: its label, the last text the
    page put on the clipboard, and the timers it has set (delay in
    milliseconds, label to restore). *)
Record Chrome : Type := mkChrome {
  copyLabel : string;
  clipboard : option string;
  timers : list (nat * string)
}.

Section Widgets.
Context {Num : Type} `{Engine Num}.
Variable env : Env Num.

(** The click handler of [supportLink]: the attribute [href], empty when
    it is missing, goes to [tg.openTelegramLink] when there is a host and
    a link.  A throw of the host leaves the handler. *)
Definition click_support : M Num unit :=
  href <- gets supportHref ;;
  match tg env with
  | Some t =>
      if String.eqb href "" then ret tt
      else host_call (EvOpenTelegramLink (JStr href)) (openTelegramLink t (JStr href))
  | None => ret tt
  end.

(** The click handler of [copyBtn].  [writeText] is what
    [navigator.clipboard.writeText] does with a text: [None] when it
    resolves, an error when it rejects or cannot be called; the [catch]
    block ignores the error. *)
Definition click_copy (writeText : string -> option JsError)
           (st : State Num) (ch : Chrome) : Chrome :=
  let val := refLinkValue st in
  if String.eqb val "" || String.eqb val "—" then ch
  else
    match writeText val with
    | Some _ => ch
    | None =>
        mkChrome "Скопировано" (Some val) (timers ch ++ [(1200, "Скопировать")])
    end.

(** The oldest timer of the copy button fires. *)
Definition fire_timer (ch : Chrome) : Chrome :=
  match timers ch with
  | [] => ch
  | (_, label) :: rest => mkChrome label (clipboard ch) rest
  end.

(** The click handler of a pack button in [miniapp/app.js], with what
    [tg.sendData] and [tg.close] do when called. *)
Definition buy_pack_miniapp (sendData close : option JsError)
           (row : PackRow Num) : M Num unit :=
  match tg env with
  | Some _ =>
      host_call (EvSendData [("action", JStr "buy_pack"); ("pack", row_key row)])
                sendData ;;
      host_call EvClose close
  | None => ret tt
  end.

(** Everything that can happen on the page of [part_000]: the actions
    above, and a click on the support link. *)
Inductive Gesture : Type :=
  | Act (a : Action (Num := Num))
  | Support.

Definition react (g : Gesture) : M Num unit :=
  match g with
  | Act a => perform env a
  | Support => click_support
  end.

Definition session (gs : list Gesture) (st : State Num) : State Num :=
  fold_left (fun st g => snd (react g st)) gs st.

(** The gestures that run [auth]. *)
Definition signs_in (g : Gesture) : bool :=
  match g with
  | Act a => is_auth a
  | Support => false
  end.

(** The three addresses the script sends requests to. *)
Definition endpoint (url : string) : Prop :=
  url = API_BASE_URL ++ "/api/auth" \/
  url = API ++ "/api/balance" \/
  url = API ++ "/api/invoice".

(** Every request of a log goes to one of them. *)
Definition requests_home (l : list (Event Num)) : Prop :=
  forall url body, In (EvFetch url body) l -> endpoint url.

(** [m] keeps the page property [I], whether it returns or throws. *)
Definition keeps {A} (I : State Num -> Prop) (m : M Num A) : Prop :=
  forall st, I st -> I (snd (m st)).

(** The line [auth] writes when the answer is not JSON. *)
Definition bad_json_line (status : string) (e : JsError) (preview : string) : string :=
  "error: bad json (status " ++ status ++ "): " ++ errText e
  ++ "; preview: " ++ preview.

End Widgets.

(** ** The claims that do not hold as worded *)


(** "For every startup in which a previously stored session value exists,
    the client initializes its session credential from that stored
    value." *)
Definition stored_session_reused : Prop :=
  forall (Num : Type) (page : State Num) (stored : gmap string string) (tok : string),
    stored !! SESSION_KEY = Some tok ->
    sessionToken (boot page stored) = JStr tok.

(** "For every call of [refreshBalance] with a session present, every
    failing outcome, a transport or parse error and equally a response
    with ok:false, surfaces a diagnostic message." *)
Definition every_balance_failure_surfaces : Prop :=
  forall (Num : Type) (E : Engine Num) (env : Env Num) (st : State Num),
    truthy (sessionToken st) = true ->
    ((exists e, transport_failure env st e) \/
     (exists data, answered env st data /\ nullish data = false /\
                   truthy (field data "ok") = false)) ->
    exists text, text <> "" /\
      diagErr (snd (refreshBalance env st)) = "error: " ++ text.

(** "When the host's [openInvoice] is unavailable, [createInvoice] falls
    back to opening the invoice link as a generic external link, and in
    that fallback no payment-status listener is attached and no error is
    surfaced." *)
Definition fallback_surfaces_no_error : Prop :=
  forall (Num : Type) (E : Engine Num) (env : Env Num) (st : State Num)
         (packKey link : JsValue Num) (t : Host Num),
    truthy (sessionToken st) = true ->
    invoice_granted env st link ->
    tg env = Some t ->
    openInvoice t = None ->
    let st' := snd (createInvoice env packKey st) in
    listeners st' = listeners st /\
    errorHidden st' = errorHidden st /\
    diagErr st' = diagErr st.

(** "For every auth response that parses as JSON with ok false, the error
    panel is shown, the diagnostic text contains the server-supplied error
    code (or 'auth_failed') followed by the server message in parentheses
    when present, and the session token is unchanged." *)
Definition refused_auth_always_shown : Prop :=
  forall (Num : Type) (E : Engine Num) (env : Env Num) (st : State Num)
         (t : Host Num) (data : JsValue Num),
    tg env = Some t ->
    truthy (initData_value t) = true ->
    answered env st data ->
    nullish data = false ->
    truthy (field data "ok") = false ->
    let st' := snd (auth env st) in
    errorHidden st' = false /\
    diagErr st' = "error: " ++ str_or (field data "error") "auth_failed"
                  ++ (if truthy (field data "message")
                      then " (" ++ to_str (field data "message") ++ ")" else "") /\
    sessionToken st' = sessionToken st.

(** "At every point in execution the session token is either null or a
    non-empty string." *)
Definition token_always_string : Prop :=
  forall (Num : Type) (E : Engine Num) (env : Env Num) (page : State Num)
         (stored : gmap string string) (acts : list (Action (Num := Num))),
    token_string (sessionToken (run env acts (boot page stored))).

(** "For every auth response with ok true but no usable session value, the
    client still performs the full display update: balance text, referral
    field, pack list re-rendered from the returned packages (defaulting to
    empty), leaving the session null." *)
Definition display_always_updated : Prop :=
  forall (Num : Type) (E : Engine Num) (env : Env Num) (st : State Num)
         (t : Host Num) (data : JsValue Num) (items : list (JsValue Num)),
    tg env = Some t ->
    truthy (initData_value t) = true ->
    answered env st data ->
    truthy (field data "ok") = true ->
    truthy (field data "session") = false ->
    or_else (field data "packages") (JArr []) = JArr items ->
    let st' := snd (auth env st) in
    balanceText st' = to_str (field data "balance") ++ " раскладов" /\
    refLinkValue st' = str_or (field data "ref_link") "—" /\
    packs st' = List.map row_of items /\
    sessionToken st' = JNull.

(** ** Sample pages *)

Module Sample.

(** An engine for the samples.  Their numbers are integers small enough
    to print as their digits (JavaScript does so below 10^21). *)
#[export] Instance engine : Engine Z := {|
  num_truthy := fun z => negb (z =? 0)%Z;
  num_str := pretty;
  null_read := fun k =>
    mkError ("Cannot read properties of null (reading '" ++ k ++ "')")
            ("TypeError: Cannot read properties of null (reading '" ++ k ++ "')");
  not_function := fun f =>
    mkError (f ++ " is not a function") ("TypeError: " ++ f ++ " is not a function");
  unprintable :=
    mkError "Cannot convert object to primitive value"
            "TypeError: Cannot convert object to primitive value"
|}.

Definition obj (l : list (string * JsValue Z)) : JsValue Z := JObj (list_to_map l).

(** The page before the script has written anything. *)
Definition page : State Z :=
  mkState JNull "" "" [] true "" "" "" "" ∅ [] 0 [].

(** The same page once a session is held. *)
Definition signed_in : State Z := with_sessionToken (JStr "s3ss10n") page.

(** A string between double quotes. *)
Definition q (s : string) : string :=
  String (ascii_of_nat 34) (s ++ String (ascii_of_nat 34) EmptyString).

(** An answer with status 200: the text sent, and what it parses to. *)
Definition answer (raw : string) (data : JsValue Z) : FetchOutcome Z :=
  FetchResponds (mkResponse 200%Z (BodyText raw (inr data))).

(** A host with every capability, whose [openInvoice] returns a promise. *)
Definition host : Host Z :=
  mkHost (Some "query_id=AAE&user=7") (JNum 7%Z) None None
         (Some (fun _ => OpenReturns true)) (fun _ => None).

(** An old host: no [openInvoice]. *)
Definition host_no_invoice : Host Z :=
  mkHost (Some "query_id=AAE&user=7") (JNum 7%Z) None None
         None (fun _ => None).

Definition invoice_ok : JsValue Z :=
  obj [("ok", JBool true); ("invoice_link", JStr "https://t.me/$inv1")].

Definition invoice_ok_text : string :=
  "{" ++ q "ok" ++ ":true," ++ q "invoice_link" ++ ":" ++ q "https://t.me/$inv1" ++ "}".

Definition balance_ok : JsValue Z :=
  obj [("ok", JBool true); ("balance", JNum 8%Z)].

Definition balance_ok_text : string :=
  "{" ++ q "ok" ++ ":true," ++ q "balance" ++ ":8}".

Definition not_ok : JsValue Z := obj [("ok", JBool false)].

Definition not_ok_text : string := "{" ++ q "ok" ++ ":false}".

Definition pack1 : JsValue Z :=
  obj [("key", JStr "pack_5"); ("spreads", JNum 5%Z); ("stars", JNum 50%Z)].

Definition pack1_text : string :=
  "{" ++ q "key" ++ ":" ++ q "pack_5" ++ "," ++ q "spreads" ++ ":5,"
  ++ q "stars" ++ ":50}".

Definition auth_ok : JsValue Z :=
  obj [("ok", JBool true); ("session", JStr "s3ss10n"); ("balance", JNum 3%Z);
       ("ref_link", JStr "https://t.me/astra?start=7"); ("packages", JArr [pack1])].

Definition auth_ok_text : string :=
  "{" ++ q "ok" ++ ":true," ++ q "session" ++ ":" ++ q "s3ss10n" ++ ","
  ++ q "balance" ++ ":3," ++ q "ref_link" ++ ":" ++ q "https://t.me/astra?start=7"
  ++ "," ++ q "packages" ++ ":[" ++ pack1_text ++ "]}".

Definition auth_no_session : JsValue Z :=
  obj [("ok", JBool true); ("session", JStr ""); ("balance", JNum 3%Z);
       ("packages", JArr [pack1])].

Definition auth_no_session_text : string :=
  "{" ++ q "ok" ++ ":true," ++ q "session" ++ ":" ++ q "" ++ ","
  ++ q "balance" ++ ":3," ++ q "packages" ++ ":[" ++ pack1_text ++ "]}".

Definition auth_denied : JsValue Z :=
  obj [("ok", JBool false); ("error", JStr "bad_signature");
       ("message", JStr "init data expired")].

Definition auth_denied_text : string :=
  "{" ++ q "ok" ++ ":false," ++ q "error" ++ ":" ++ q "bad_signature" ++ ","
  ++ q "message" ++ ":" ++ q "init data expired" ++ "}".

(** The first request is answered by an invoice, the later ones by a
    balance. *)
Definition shop (h : Host Z) : Env Z :=
  mkEnv (Some h)
        (fun n => match n with
                  | O => answer invoice_ok_text invoice_ok
                  | _ => answer balance_ok_text balance_ok
                  end)
        None.

(** Every request is answered by [data], sent as [raw]. *)
Definition always (h : option (Host Z)) (raw : string) (data : JsValue Z) : Env Z :=
  mkEnv h (fun _ => answer raw data) None.

(** A whole visit: auth, then an invoice, then balances. *)
Definition visit : Env Z :=
  mkEnv (Some host)
        (fun n => match n with
                  | O => answer auth_ok_text auth_ok
                  | 1 => answer invoice_ok_text invoice_ok
                  | _ => answer balance_ok_text balance_ok
                  end)
        None.

(** The network is down. *)
Definition offline (h : option (Host Z)) : Env Z :=
  mkEnv h (fun _ => FetchRejects (mkError "Failed to fetch" "TypeError: Failed to fetch")) None.

(** What the host throws for a method it does not have, and for a link
    it does not take. *)
Definition unsupported : JsError :=
  mkError "WebAppMethodUnsupported" "Error: WebAppMethodUnsupported".

Definition url_invalid : JsError :=
  mkError "WebAppTgUrlInvalid" "Error: WebAppTgUrlInvalid".

(** A host whose [openInvoice] throws. *)
Definition host_broken : Host Z :=
  mkHost (Some "query_id=AAE&user=7") (JNum 7%Z) None None
         (Some (fun _ => OpenThrows unsupported))
         (fun _ => None).

(** An old host that does not take the invoice link either. *)
Definition host_bad_link : Host Z :=
  mkHost (Some "query_id=AAE&user=7") (JNum 7%Z) None None
         None (fun _ => Some url_invalid).

(** A refusal whose error code is an object with a [toString] of its
    own. *)
Definition auth_odd_error : JsValue Z :=
  obj [("ok", JBool false); ("error", obj [("toString", JNum 1%Z)])].

Definition auth_odd_error_text : string :=
  "{" ++ q "ok" ++ ":false," ++ q "error" ++ ":{" ++ q "toString" ++ ":1}}".

(** An answer whose session is a number. *)
Definition auth_number_session : JsValue Z :=
  obj [("ok", JBool true); ("session", JNum 123%Z); ("balance", JNum 3%Z);
       ("packages", JArr [pack1])].

Definition auth_number_session_text : string :=
  "{" ++ q "ok" ++ ":true," ++ q "session" ++ ":123,"
  ++ q "balance" ++ ":3," ++ q "packages" ++ ":[" ++ pack1_text ++ "]}".

(** An answer without a session, with a [null] among its packs. *)
Definition auth_null_pack : JsValue Z :=
  obj [("ok", JBool true); ("balance", JNum 3%Z);
       ("packages", JArr [pack1; JNull; pack1])].

Definition auth_null_pack_text : string :=
  "{" ++ q "ok" ++ ":true," ++ q "balance" ++ ":3," ++ q "packages" ++ ":["
  ++ pack1_text ++ ",null," ++ pack1_text ++ "]}".

(** An answer without a session, whose balance is an object with a
    [toString] of its own. *)
Definition auth_odd_balance : JsValue Z :=
  obj [("ok", JBool true); ("balance", obj [("toString", JNum 1%Z)]);
       ("packages", JArr [pack1])].

Definition auth_odd_balance_text : string :=
  "{" ++ q "ok" ++ ":true," ++ q "balance" ++ ":{" ++ q "toString" ++ ":1},"
  ++ q "packages" ++ ":[" ++ pack1_text ++ "]}".

(** An answer with everything, the support link too. *)
Definition auth_full : JsValue Z :=
  obj [("ok", JBool true); ("session", JStr "s3ss10n"); ("balance", JNum 3%Z);
       ("ref_link", JStr "https://t.me/astra?start=7"); ("packages", JArr [pack1]);
       ("support_link", JStr "https://t.me/astra_support")].

Definition auth_full_text : string :=
  "{" ++ q "ok" ++ ":true," ++ q "session" ++ ":" ++ q "s3ss10n" ++ ","
  ++ q "balance" ++ ":3," ++ q "ref_link" ++ ":" ++ q "https://t.me/astra?start=7"
  ++ "," ++ q "packages" ++ ":[" ++ pack1_text ++ "],"
  ++ q "support_link" ++ ":" ++ q "https://t.me/astra_support" ++ "}".

(** An answer whose packages are not a list. *)
Definition auth_bad_packs : JsValue Z :=
  obj [("ok", JBool true); ("session", JStr "s3ss10n"); ("balance", JNum 3%Z);
       ("packages", JStr "none")].

Definition auth_bad_packs_text : string :=
  "{" ++ q "ok" ++ ":true," ++ q "session" ++ ":" ++ q "s3ss10n" ++ ","
  ++ q "balance" ++ ":3," ++ q "packages" ++ ":" ++ q "none" ++ "}".

(** What [JSON.parse] throws on a page of HTML. *)
Definition bad_token : JsError :=
  mkError "Unexpected token '<'" "SyntaxError: Unexpected token '<'".

(** A gateway answers in place of the backend. *)
Definition gateway_error : Env Z :=
  mkEnv (Some host)
        (fun _ => FetchResponds
                    (mkResponse 502%Z
                       (BodyText "<html>Bad Gateway</html>" (inl bad_token))))
        None.

(** The page with a referral link in its field. *)
Definition with_link : State Z :=
  with_refLinkValue "https://t.me/astra?start=7" signed_in.

(** The copy button as the page shows it first. *)
Definition chrome : Chrome := mkChrome "Скопировать" None [].

(** Local storage as an earlier visit left it. *)
Definition stored : gmap string string := {[ SESSION_KEY := "s3ss10n" ]}.

End Sample.

(** ** Proof tools *)

Ltac unfold_script :=
  unfold createInvoice, refreshBalance, onStatus, open_invoice, open_link,
    deliver, click_pack, setItem_quiet, bad_json, fetch, json, prop, host_call,
    setError, showError, setDiag, print, emit, modify, gets, bind, try_catch,
    detached, ret, throw in *.

(** Split on what the script branches on next: a scrutinee that is not
    itself waiting for another one. *)
Ltac branch :=
  match goal with
  | |- context [match ?x with _ => _ end] =>
      lazymatch x with
      | context [match _ with _ => _ end] => fail
      | _ => first [ is_var x; destruct x | destruct x eqn:? ]
      end
  end.

(** * Theorems *)

Section Facts.
Context {Num : Type} `{Engine Num}.
Variable env : Env Num.
Implicit Type st : State Num.

(** ** Values *)

Lemma truthy_not_nullish (v : JsValue Num) : truthy v = true -> nullish v = false.
Proof. destruct v; simpl; congruence. Qed.

Lemma truthy_field_object (data : JsValue Num) k :
  truthy (field data k) = true -> nullish data = false.
Proof. destruct data; simpl; congruence. Qed.

Lemma truthy_string (s : string) : truthy (@JStr Num s) = true <-> s <> "".
Proof.
  simpl. rewrite negb_true_iff. split.
  - intros E ->. discriminate.
  - intros N. destruct (String.eqb_spec s ""); congruence.
Qed.

Lemma truthy_or_else_null (v : JsValue Num) : truthy (or_else v JNull) = truthy v.
Proof. unfold or_else. destruct (truthy v) eqn:E; [exact E | reflexivity]. Qed.

Lemma append_empty_r (s : string) : s ++ "" = s.
Proof.
  induction s as [| c s IH]; [reflexivity |].
  change (String c (s ++ "") = String c s). rewrite IH. reflexivity.
Qed.

Lemma printable_falsy (v : JsValue Num) : truthy v = false -> printable v = true.
Proof. destruct v; simpl; congruence. Qed.

Lemma printable_or_else (v : JsValue Num) (d : string) :
  printable (or_else v (JStr d)) = printable v.
Proof.
  unfold or_else. destruct (truthy v) eqn:E; [reflexivity |].
  rewrite (printable_falsy v E). reflexivity.
Qed.

Lemma to_str_or_else (v : JsValue Num) (d : string) :
  to_str (or_else v (JStr d)) = str_or v d.
Proof. unfold or_else, str_or. destruct (truthy v); reflexivity. Qed.

(** [setError] on a string writes its line and never throws. *)
Lemma setError_string (text : string) st :
  setError (Num := Num) (JStr text) st = (Returns tt, with_diagErr (diag_line text) st).
Proof.
  unfold setError, print, bind, modify, ret, diag_line, or_else. simpl.
  destruct (String.eqb text ""); reflexivity.
Qed.

(** What [setError] writes for a string. *)
Lemma error_line_string (text : string) :
  "error: " ++ to_str (or_else (@JStr Num text) (JStr "—")) = diag_line text.
Proof.
  unfold diag_line, or_else. simpl. destruct (String.eqb text ""); reflexivity.
Qed.

Lemma diag_line_text (text : string) : text <> "" -> diag_line text = "error: " ++ text.
Proof.
  intros N. unfold diag_line. destruct (String.eqb_spec text ""); congruence.
Qed.

(** ** createInvoice without a session *)

(** Without a truthy token [createInvoice] does two things only. *)
Lemma createInvoice_stops st (packKey : JsValue Num) :
  truthy (sessionToken st) = false ->
  createInvoice env packKey st =
    (Returns tt, with_errorHidden false (with_diagErr "error: no session" st)).
Proof.
  intros Hfalsy. unfold createInvoice, bind, gets. rewrite Hfalsy. reflexivity.
Qed.

(** C1. [createInvoice] called while the session token is [null] sends
    nothing to the network (the log and the request counter are as
    before), makes the error panel visible, sets the diagnostic line to
    the fixed message [no session], and leaves the token and the displayed
    balance as they were. *)
Theorem createInvoice_no_session st (packKey : JsValue Num) :
  sessionToken st = JNull ->
  exists st',
    createInvoice env packKey st = (Returns tt, st') /\
    log st' = log st /\
    requests st' = requests st /\
    errorHidden st' = false /\
    diagErr st' = "error: no session" /\
    sessionToken st' = sessionToken st /\
    balanceText st' = balanceText st.
Proof.
  intros Hnull. eexists. split.
  - apply createInvoice_stops. rewrite Hnull. reflexivity.
  - simpl. repeat split; reflexivity.
Qed.

(** ** Payment statuses other than paid *)

(** C7. A status [cancelled] or [failed] that reaches a handler shows the
    error panel with the diagnostic [invoice <status>] and calls no
    [refreshBalance] (the log is as before: nothing was called, nothing
    was sent); any other status that is not [paid] changes nothing. *)
Theorem unpaid_status_no_refresh st (c : Channel) (status : string) :
  c ∈ listeners st ->
  (status = "cancelled" \/ status = "failed" ->
   exists st',
     deliver env c status st = (Returns tt, st') /\
     errorHidden st' = false /\
     diagErr st' = "error: invoice " ++ status /\
     log st' = log st /\
     refresh_calls (log st') = refresh_calls (log st) /\
     requests st' = requests st /\
     balanceText st' = balanceText st) /\
  (status <> "paid" -> status <> "cancelled" -> status <> "failed" ->
   deliver env c status st = (Returns tt, st)).
Proof.
  intros Hin. unfold deliver, bind, gets.
  rewrite (bool_decide_eq_true_2 _ Hin). split.
  - intros [-> | ->]; eexists; (split; [reflexivity | simpl; repeat split; reflexivity]).
  - intros Np Nc Nf. unfold onStatus.
    apply String.eqb_neq in Np, Nc, Nf. rewrite Np, Nc, Nf. reflexivity.
Qed.

(** ** auth *)

(** C8. Without a host context ([tg] is [null], or its init data is
    absent or empty) [auth] returns normally, shows the error panel and
    sends nothing: no host call and no request is logged. *)
Theorem auth_without_host st :
  match tg env with
  | None => True
  | Some t => initData t = None \/ initData t = Some ""
  end ->
  exists st',
    auth env st = (Returns tt, st') /\
    errorHidden st' = false /\
    log st' = log st /\
    requests st' = requests st /\
    sessionToken st' = sessionToken st.
Proof.
  intros Hctx. unfold auth, initData_value. destruct (tg env) as [t|].
  - assert (truthy (from_option JStr JUndefined (initData t)) = false) as E
      by (destruct Hctx as [-> | ->]; reflexivity).
    unfold bind at 1. unfold setDiag, modify. rewrite E. simpl.
    eexists. split; [reflexivity | simpl; repeat split; reflexivity].
  - eexists. split; [reflexivity | simpl; repeat split; reflexivity].
Qed.

(** ** refreshBalance *)


(** What [refreshBalance] leaves alone, and what it logs: its own call,
    then at most the balance request. *)
Lemma refreshBalance_frame st :
  exists st',
    refreshBalance env st = (Returns tt, st') /\
    sessionToken st' = sessionToken st /\
    listeners st' = listeners st /\
    storage st' = storage st /\
    errorHidden st' = errorHidden st /\
    packs st' = packs st /\
    (log st' = (log st ++ [EvRefreshBalance])%list \/
     log st' = (log st ++ [EvRefreshBalance;
                           EvFetch (API ++ "/api/balance")
                                   [("session", sessionToken st)]])%list).
Proof.
  unfold refreshBalance. unfold_script. simpl.
  destruct (truthy (sessionToken st)); simpl.
  2: { eexists. split; [reflexivity | simpl; repeat split; auto]. }
  destruct (network env (requests st)) as [e | r]; simpl.
  { eexists. split; [reflexivity | simpl].
    rewrite <- app_assoc. repeat split; auto. }
  destruct (resp_body r) as [e | raw [e | data]]; simpl;
    try (eexists; split; [reflexivity | simpl];
         rewrite <- app_assoc; repeat split; auto; fail).
  destruct (nullish data); simpl;
    try (eexists; split; [reflexivity | simpl];
         rewrite <- app_assoc; repeat split; auto; fail).
  destruct (truthy (field data "ok")); simpl;
    try destruct (printable (field data "balance")); simpl;
    eexists; (split; [reflexivity | simpl]);
    rewrite <- app_assoc; repeat split; auto.
Qed.


(** C4, as the code has it. With a session present [refreshBalance]
    always returns normally and leaves the token and the error panel
    alone.  A transport or parse failure writes the diagnostic
    [balance refresh failed: ...] and leaves the displayed balance; an
    answer whose [ok] is falsy writes nothing at all: diagnostic and
    balance are both as before. *)
Theorem refreshBalance_failure st :
  truthy (sessionToken st) = true ->
  exists st',
    refreshBalance env st = (Returns tt, st') /\
    sessionToken st' = sessionToken st /\
    errorHidden st' = errorHidden st /\
    (forall e, transport_failure env st e ->
       diagErr st' = "error: balance refresh failed: " ++ errText e /\
       balanceText st' = balanceText st) /\
    (forall data, answered env st data -> nullish data = false ->
       truthy (field data "ok") = false ->
       diagErr st' = diagErr st /\ balanceText st' = balanceText st).
Proof.
  intros Htok. unfold transport_failure, answered.
  unfold refreshBalance. unfold_script. simpl. rewrite Htok. simpl.
  destruct (network env (requests st)) as [e | r]; simpl.
  { eexists. split; [reflexivity | simpl]. split; [easy|]. split; [easy|]. split.
    - intros e' ->. split; reflexivity.
    - intros data (r & raw & Hr & _). discriminate. }
  destruct (resp_body r) as [e | raw [e | data]] eqn:Hbody; simpl.
  1, 2: eexists; (split; [reflexivity | simpl]);
    (split; [easy|]); (split; [easy|]); (split;
      [ intros e' ->; split; reflexivity
      | intros data (r' & raw' & Hr & Hb); injection Hr as <-; congruence ]).
  destruct (nullish data) eqn:Hnull; simpl.
  { eexists. split; [reflexivity | simpl]. split; [easy|]. split; [easy|]. split.
    - intros e' [_ ->]. split; reflexivity.
    - intros d (r' & raw' & Hr & Hb) Hd. injection Hr as <-.
      rewrite Hbody in Hb. injection Hb as _ <-. congruence. }
  destruct (truthy (field data "ok")) eqn:Hok; simpl.
  - destruct (printable (field data "balance")); simpl;
      (eexists; split; [reflexivity | simpl]);
      (split; [easy|]); (split; [easy|]);
      (split; [ intros e' [? _]; congruence | ]);
      intros d (r' & raw' & Hr & Hb) Hd Hf; injection Hr as <-;
      rewrite Hbody in Hb; injection Hb as _ <-; congruence.
  - eexists. split; [reflexivity | simpl].
    split; [easy|]. split; [easy|]. split; [ intros e' [? _]; congruence | ].
    intros; split; reflexivity.
Qed.

(** ** createInvoice with a granted invoice *)

(** C5, as the code has it. When the backend grants an invoice and the
    host has no [openInvoice], [createInvoice] hands the link to
    [tg.openTelegramLink]: after the request, that call is the only thing
    it does, and no status handler is attached.  If the link opener
    returns, the error panel and the diagnostic line are untouched; if it
    throws, the outer [catch] shows the panel with [invoice error: ...]. *)
Theorem createInvoice_fallback_link st (packKey link : JsValue Num) (t : Host Num) :
  truthy (sessionToken st) = true ->
  invoice_granted env st link ->
  tg env = Some t ->
  openInvoice t = None ->
  exists st',
    createInvoice env packKey st = (Returns tt, st') /\
    log st' = (log st ++ [invoice_request st packKey; EvOpenTelegramLink link])%list /\
    listeners st' = listeners st /\
    sessionToken st' = sessionToken st /\
    match openTelegramLink t link with
    | None => errorHidden st' = errorHidden st /\ diagErr st' = diagErr st
    | Some e => errorHidden st' = false /\
                diagErr st' = "error: invoice error: " ++ errText e
    end.
Proof.
  intros Htok (r & raw & data & Hnet & Hbody & Hok & Hlink & Htruthy) Htg Hnone.
  pose proof (truthy_field_object _ _ Hok) as Hobj. subst link.
  unfold createInvoice. unfold_script. simpl.
  rewrite Htok. simpl. rewrite Hnet. simpl. rewrite Hbody, Hobj. simpl.
  rewrite Hok, Htruthy. simpl. rewrite Htg, Hnone. simpl.
  destruct (openTelegramLink t (field data "invoice_link")); simpl;
    (eexists; split; [reflexivity | simpl]);
    rewrite <- app_assoc; repeat split; reflexivity.
Qed.

(** When the backend grants an invoice and [openInvoice] returns,
    [createInvoice] attaches the callback, and the [then] handler too if
    what came back is a thenable. *)
Lemma createInvoice_opened st (packKey link : JsValue Num) (t : Host Num)
      (opener : JsValue Num -> OpenOutcome) (thenable : bool) :
  truthy (sessionToken st) = true ->
  invoice_granted env st link ->
  tg env = Some t ->
  openInvoice t = Some opener ->
  opener link = OpenReturns thenable ->
  exists st',
    createInvoice env packKey st = (Returns tt, st') /\
    log st' = (log st ++ [invoice_request st packKey; EvOpenInvoice link])%list /\
    listeners st' = (listeners st ++ Callback :: (if thenable then [Promise] else []))%list /\
    errorHidden st' = errorHidden st /\
    diagErr st' = diagErr st.
Proof.
  intros Htok (r & raw & data & Hnet & Hbody & Hok & Hlink & Htruthy) Htg Hsome Hopen.
  pose proof (truthy_field_object _ _ Hok) as Hobj. subst link.
  unfold createInvoice. unfold_script. simpl.
  rewrite Htok. simpl. rewrite Hnet. simpl. rewrite Hbody, Hobj. simpl.
  rewrite Hok, Htruthy. simpl. rewrite Htg, Hsome. simpl. rewrite Hopen.
  destruct thenable; simpl;
    (eexists; split; [reflexivity | simpl]);
    rewrite <- ?app_assoc; repeat split; reflexivity.
Qed.

(** ** Status deliveries *)



(** ** What the operations other than auth leave alone *)

Lemma credentials_ok_nil : credentials_ok (@nil (Event Num)).
Proof. intros ev tok []. Qed.

Lemma credentials_ok_snoc (l : list (Event Num)) (ev : Event Num) :
  credentials_ok l ->
  (forall tok, guarded_request ev tok -> truthy tok = true) ->
  credentials_ok (l ++ [ev]).
Proof.
  intros Hl Hev ev' tok Hin Hg. apply in_app_or in Hin as [Hin | [<- | []]].
  - exact (Hl _ _ Hin Hg).
  - exact (Hev _ Hg).
Qed.

Lemma guarded_session url (v tok : JsValue Num) rest :
  guarded_request (EvFetch url (("session", v) :: rest)) tok -> tok = v.
Proof. intros (u & r & E). congruence. Qed.

Ltac not_guarded :=
  let tok := fresh in let G := fresh in
  intros tok G; destruct G as (? & ? & G); discriminate G.

(** Close a goal [credentials_ok (log ++ events)] event by event. *)
Ltac creds :=
  repeat (apply credentials_ok_snoc;
          [| first [ not_guarded
                   | let tok := fresh in let G := fresh in
                     intros tok G; apply guarded_session in G; subst tok; assumption ]]);
  assumption.

Lemma refreshBalance_credentials st :
  credentials_ok (log st) -> credentials_ok (log (snd (refreshBalance env st))).
Proof.
  intros Hl. unfold refreshBalance. unfold_script. simpl.
  destruct (truthy (sessionToken st)) eqn:Htok; simpl; [| creds].
  repeat (branch; simpl); creds.
Qed.

Lemma createInvoice_frame st (packKey : JsValue Num) :
  let st' := snd (createInvoice env packKey st) in
  sessionToken st' = sessionToken st /\
  storage st' = storage st /\
  balanceText st' = balanceText st /\
  (credentials_ok (log st) -> credentials_ok (log st')).
Proof.
  unfold createInvoice, open_invoice. unfold_script. simpl.
  destruct (truthy (sessionToken st)) eqn:Htok; simpl.
  2: { repeat split; auto. }
  repeat (branch; simpl); (repeat split; [reflexivity .. |]); intros Hl; creds.
Qed.

Lemma deliver_frame st (c : Channel) (status : string) :
  let st' := snd (deliver env c status st) in
  sessionToken st' = sessionToken st /\
  storage st' = storage st /\
  (credentials_ok (log st) -> credentials_ok (log st')).
Proof.
  unfold deliver, onStatus, bind, gets, detached. simpl.
  destruct (bool_decide (c ∈ listeners st)); simpl; [| tauto].
  destruct (String.eqb status "paid"); simpl.
  - destruct (refreshBalance_frame st) as (st' & E & Ht & _ & Hs & _).
    pose proof (refreshBalance_credentials st) as Hc.
    rewrite E in *. simpl in *. tauto.
  - destruct (String.eqb status "cancelled" || String.eqb status "failed"); simpl; tauto.
Qed.

(** Every action but [auth] leaves the token and local storage as they
    are, and sends the token only when it is truthy. *)
Lemma perform_frame (a : Action) st :
  is_auth a = false ->
  let st' := snd (perform env a st) in
  sessionToken st' = sessionToken st /\
  storage st' = storage st /\
  (credentials_ok (log st) -> credentials_ok (log st')).
Proof.
  intros Ha. destruct a as [| | packKey | i | c status]; try discriminate; simpl.
  - unfold detached. simpl.
    destruct (refreshBalance_frame st) as (st' & E & Ht & _ & Hs & _).
    pose proof (refreshBalance_credentials st) as Hc.
    rewrite E in *. simpl in *. tauto.
  - unfold detached. simpl.
    destruct (createInvoice_frame st packKey) as (? & ? & ? & ?). tauto.
  - unfold bind, gets, click_pack. simpl.
    destruct (packs st !! i) as [row |]; simpl; [| tauto].
    destruct (tg env); simpl; [| tauto].
    unfold detached. simpl.
    destruct (createInvoice_frame st (row_key row)) as (? & ? & ? & ?). tauto.
  - apply deliver_frame.
Qed.

(** ** renderPacks *)

Lemma with_packs_same st : with_packs (packs st) st = st.
Proof. destruct st. reflexivity. Qed.

(** One row: a [null] pack and a quantity or price that cannot be
    printed throw before anything is appended. *)
Lemma renderRow_run (p : JsValue Num) st :
  renderRow p st =
    if nullish p then (Throws (null_read "spreads"), st)
    else if printable (field p "spreads") && printable (field p "stars")
         then (Returns tt, with_packs (packs st ++ [row_of p]) st)
         else (Throws unprintable, st).
Proof.
  unfold renderRow, prop, print, modify, bind, throw, ret.
  destruct (nullish p); [reflexivity |].
  destruct (printable (field p "spreads")); [| reflexivity].
  destruct (printable (field p "stars")); reflexivity.
Qed.

(** Rows are appended, whatever the page; which rows, and whether a pack
    stops the loop by throwing, depends on the packs alone. *)
Lemma renderRows_result (items : list (JsValue Num)) :
  exists (r : Result unit) (rows : list (PackRow Num)),
    forall st, renderRows items st = (r, with_packs (packs st ++ rows) st).
Proof.
  induction items as [| p items (r & rows & IH)]; simpl.
  - exists (Returns tt), []. intros st. unfold ret.
    rewrite app_nil_r, with_packs_same. reflexivity.
  - unfold bind.
    destruct (nullish p) eqn:Hp;
      [| destruct (printable (field p "spreads") && printable (field p "stars")) eqn:Hq].
    + exists (Throws (null_read "spreads")), []. intros st.
      rewrite renderRow_run, Hp, app_nil_r, with_packs_same. reflexivity.
    + exists r, (row_of p :: rows). intros st.
      rewrite renderRow_run, Hp, Hq, IH. simpl.
      rewrite <- app_assoc. reflexivity.
    + exists (Throws unprintable), []. intros st.
      rewrite renderRow_run, Hp, Hq, app_nil_r, with_packs_same. reflexivity.
Qed.

Lemma renderRows_wf (items : list (JsValue Num)) st :
  Forall pack_ok items ->
  renderRows items st = (Returns tt, with_packs (packs st ++ List.map row_of items) st).
Proof.
  intros Hwf. revert st.
  induction Hwf as [| p items (Hp & Hs & Hr) _ IH]; intros st; simpl.
  - unfold ret. rewrite app_nil_r, with_packs_same. reflexivity.
  - unfold bind. rewrite renderRow_run, Hp, Hs, Hr. simpl.
    rewrite IH. simpl. rewrite <- app_assoc. reflexivity.
Qed.

Lemma renderPacks_result (ps : JsValue Num) :
  exists (r : Result unit) (rows : list (PackRow Num)),
    forall st, renderPacks ps st = (r, with_packs rows st).
Proof.
  unfold renderPacks, bind, modify.
  destruct ps as [| | b | n | s | items | fields];
    try (eexists _, []; intros st; reflexivity).
  destruct (renderRows_result items) as (r & rows & E).
  exists r, rows. intros st. rewrite E. reflexivity.
Qed.

Lemma renderPacks_wf (items : list (JsValue Num)) st :
  Forall pack_ok items ->
  renderPacks (JArr items) st = (Returns tt, with_packs (List.map row_of items) st).
Proof.
  intros Hwf. unfold renderPacks, bind, modify.
  rewrite (renderRows_wf items _ Hwf). reflexivity.
Qed.

(** ** auth, step by step *)

(** With a host context and an answer that parses to [data], [auth] comes
    to the point where [data] is inspected having written only the two
    diagnostic lines of [setDiag] and, if [ready] or [expand] threw, the
    error line; it has sent the one auth request. *)
Lemma auth_answered st (t : Host Num) (data : JsValue Num) :
  tg env = Some t ->
  truthy (initData_value t) = true ->
  answered env st data ->
  exists st0,
    auth env st = auth_data env data st0 /\
    sessionToken st0 = sessionToken st /\
    storage st0 = storage st /\
    balanceText st0 = balanceText st /\
    refLinkValue st0 = refLinkValue st /\
    packs st0 = packs st /\
    errorHidden st0 = errorHidden st /\
    listeners st0 = listeners st /\
    requests st0 = S (requests st) /\
    (credentials_ok (log st) -> credentials_ok (log st0)).
Proof.
  intros Htg Hinit (r & raw & Hnet & Hbody).
  unfold auth. rewrite Htg. unfold_script. simpl. rewrite Hinit. simpl.
  destruct (ready t), (expand t); simpl; rewrite Hnet; simpl; rewrite Hbody;
    (eexists; split; [reflexivity | simpl]);
    (repeat split; [reflexivity .. |]); intros Hl; creds.
Qed.

(** What [auth] does with an answer whose [ok] is falsy: it prints the
    message, then the error code, and only then writes the line and shows
    the panel. *)
Lemma auth_data_refuses (data : JsValue Num) st :
  nullish data = false ->
  truthy (field data "ok") = false ->
  auth_data env data st =
    if printable (field data "message") && printable (field data "error")
    then (Returns tt,
          with_errorHidden false
            (with_diagErr
               (diag_line
                  (str_or (field data "error") "auth_failed"
                   ++ (if truthy (field data "message")
                       then " (" ++ to_str (field data "message") ++ ")" else "")))
               st))
    else (Throws unprintable, st).
Proof.
  intros Hnull Hok. unfold auth_data. unfold_script. rewrite Hnull, Hok. simpl.
  rewrite !printable_or_else, !to_str_or_else. simpl.
  destruct (truthy (field data "message")) eqn:Hm.
  - destruct (printable (field data "message")); simpl; [| reflexivity].
    destruct (printable (field data "error")); simpl; [| reflexivity].
    rewrite printable_or_else. cbn [printable]. cbv beta iota.
    rewrite error_line_string. reflexivity.
  - rewrite (printable_falsy _ Hm). simpl.
    destruct (printable (field data "error")); simpl; [| reflexivity].
    rewrite printable_or_else. cbn [printable]. cbv beta iota.
    rewrite error_line_string. reflexivity.
Qed.

(** C6, as the code has it. An auth answer that parses to a value whose
    [ok] is falsy shows the error panel, provided the server's message and
    error code can be printed: the diagnostic line is the error code, or
    [auth_failed] when there is none, followed by the message in
    parentheses when there is one, and token, local storage, balance,
    referral field and pack list stay as they were.  When the message or
    the code is an object that cannot be printed, [auth] rejects with the
    engine's [TypeError] instead: nothing is written and the panel is not
    shown. *)
Theorem auth_refused st (t : Host Num) (data : JsValue Num) :
  tg env = Some t ->
  truthy (initData_value t) = true ->
  answered env st data ->
  nullish data = false ->
  truthy (field data "ok") = false ->
  let code := str_or (field data "error") "auth_failed" in
  let msg := if truthy (field data "message")
             then " (" ++ to_str (field data "message") ++ ")" else "" in
  (printable (field data "message") = true ->
   printable (field data "error") = true ->
   exists st',
     auth env st = (Returns tt, st') /\
     errorHidden st' = false /\
     diagErr st' = diag_line (code ++ msg) /\
     (code ++ msg <> "" -> diagErr st' = "error: " ++ code ++ msg) /\
     sessionToken st' = sessionToken st /\
     storage st' = storage st /\
     balanceText st' = balanceText st /\
     refLinkValue st' = refLinkValue st /\
     packs st' = packs st) /\
  (printable (field data "message") = false \/
   printable (field data "error") = false ->
   exists st',
     auth env st = (Throws unprintable, st') /\
     errorHidden st' = errorHidden st /\
     sessionToken st' = sessionToken st /\
     storage st' = storage st /\
     balanceText st' = balanceText st /\
     refLinkValue st' = refLinkValue st /\
     packs st' = packs st).
Proof.
  intros Htg Hinit Hans Hnull Hok code msg.
  destruct (auth_answered st t data Htg Hinit Hans)
    as (st0 & E & Ht & Hs & Hb & Hr & Hp & Hh & _).
  rewrite E, (auth_data_refuses data st0 Hnull Hok). split.
  - intros -> ->. simpl. eexists. split; [reflexivity | simpl].
    repeat split; try assumption. intros N. apply diag_line_text, N.
  - intros Hbad.
    assert (printable (field data "message") && printable (field data "error") = false)
      as -> by (destruct Hbad as [-> | ->]; [reflexivity | apply andb_false_r]).
    exists st0. repeat split; assumption.
Qed.

(** An answer whose [ok] is truthy, step by step.  The token and local
    storage are written first and stay written.  Then come the balance
    line, the referral field, the packs and the support link, each after
    the one before: the first that cannot be printed, or the packs if
    rendering throws, ends [auth] with that error and leaves the rest of
    the page as it was. *)
Lemma auth_data_accepts (data : JsValue Num) st (r0 : Result unit)
      (rows : list (PackRow Num)) :
  truthy (field data "ok") = true ->
  (forall s, renderPacks (or_else (field data "packages") (JArr [])) s
             = (r0, with_packs rows s)) ->
  exists r st',
    auth_data env data st = (r, st') /\
    sessionToken st' = or_else (field data "session") JNull /\
    storage st' = stored_after env data (storage st) /\
    errorHidden st' = errorHidden st /\
    diagErr st' = diagErr st /\
    log st' = log st /\
    requests st' = requests st /\
    listeners st' = listeners st /\
    if printable (field data "balance") then
      balanceText st' = to_str (field data "balance") ++ " раскладов" /\
      if printable (field data "ref_link") then
        refLinkValue st' = str_or (field data "ref_link") "—" /\
        packs st' = rows /\
        match r0 with
        | Throws e => r = Throws e /\ supportHref st' = supportHref st
        | Returns _ =>
            if truthy (field data "support_link") then
              if printable (field data "support_link")
              then r = Returns tt /\
                   supportHref st' = to_str (field data "support_link")
              else r = Throws unprintable /\ supportHref st' = supportHref st
            else r = Returns tt /\ supportHref st' = supportHref st
        end
      else
        r = Throws unprintable /\ refLinkValue st' = refLinkValue st /\
        packs st' = packs st /\ supportHref st' = supportHref st
    else
      r = Throws unprintable /\ balanceText st' = balanceText st /\
      refLinkValue st' = refLinkValue st /\ packs st' = packs st /\
      supportHref st' = supportHref st.
Proof.
  intros Hok E. unfold auth_data. unfold_script.
  rewrite (truthy_field_object _ _ Hok), Hok. simpl.
  rewrite truthy_or_else_null. unfold stored_after.
  assert (or_else (field data "session") JNull =
          if truthy (field data "session") then field data "session" else JNull)
    as Htok by reflexivity.
  destruct (truthy (field data "session")) eqn:Hs; simpl.
  - rewrite Htok.
    destruct (printable (field data "session")); simpl;
      [ destruct (setItem_throws env); simpl |];
      (destruct (printable (field data "balance")); simpl;
       [ rewrite printable_or_else;
         destruct (printable (field data "ref_link")); simpl;
         [ rewrite E; simpl; destruct r0 as [[] | e]; simpl;
           [ destruct (truthy (field data "support_link")); simpl;
             [ destruct (printable (field data "support_link")); simpl | ] | ] | ] | ]);
      (eexists _, _; split; [reflexivity | simpl]);
      rewrite ?Htok, ?to_str_or_else; repeat split; reflexivity.
  - destruct (printable (field data "balance")); simpl;
      [ rewrite printable_or_else;
        destruct (printable (field data "ref_link")); simpl;
        [ rewrite E; simpl; destruct r0 as [[] | e]; simpl;
          [ destruct (truthy (field data "support_link")); simpl;
            [ destruct (printable (field data "support_link")); simpl | ] | ] | ] | ];
      (eexists _, _; split; [reflexivity | simpl]);
      rewrite ?Htok, ?to_str_or_else; repeat split; reflexivity.
Qed.

(** What inspecting [data] can do to the token and to local storage: it
    leaves both, or [ok] was truthy and the token is now
    [data.session || null], stored only if truthy. *)
Lemma auth_data_shape (data : JsValue Num) st :
  exists r st',
    auth_data env data st = (r, st') /\
    log st' = log st /\
    requests st' = requests st /\
    listeners st' = listeners st /\
    ((truthy (field data "ok") = false /\
      sessionToken st' = sessionToken st /\ storage st' = storage st) \/
     (truthy (field data "ok") = true /\
      sessionToken st' = or_else (field data "session") JNull /\
      storage st' = stored_after env data (storage st))).
Proof.
  destruct (nullish data) eqn:Hnull.
  { unfold auth_data, prop, bind, throw. rewrite Hnull.
    eexists _, _. split; [reflexivity |].
    destruct data; try discriminate; simpl; tauto. }
  destruct (truthy (field data "ok")) eqn:Hok.
  - destruct (renderPacks_result (or_else (field data "packages") (JArr [])))
      as (r0 & rows & E).
    destruct (auth_data_accepts data st r0 rows Hok E)
      as (r & st' & Eq & Ht & Hs & _ & _ & Hl & Hr & Hls & _).
    exists r, st'. split; [exact Eq |]. repeat split; try assumption.
    right. repeat split; assumption.
  - rewrite (auth_data_refuses data st Hnull Hok).
    destruct (printable (field data "message") && printable (field data "error"));
      (eexists _, _; split; [reflexivity | simpl; tauto]).
Qed.

(** Every way [auth] can go: the token and local storage are left as
    they are, unless the request was answered with a truthy [ok]; then the
    token is [data.session || null]. Its one request carries no token. *)
Lemma auth_shape st :
  exists r st',
    auth env st = (r, st') /\
    (credentials_ok (log st) -> credentials_ok (log st')) /\
    ((sessionToken st' = sessionToken st /\ storage st' = storage st) \/
     exists data,
       answered env st data /\
       truthy (field data "ok") = true /\
       sessionToken st' = or_else (field data "session") JNull /\
       storage st' = stored_after env data (storage st)).
Proof.
  destruct (tg env) as [t |] eqn:Htg.
  2: { unfold auth. rewrite Htg. unfold_script. simpl.
       eexists _, _. split; [reflexivity | simpl; tauto]. }
  destruct (truthy (initData_value t)) eqn:Hinit.
  2: { unfold auth. rewrite Htg. unfold_script. simpl. rewrite Hinit. simpl.
       eexists _, _. split; [reflexivity | simpl; tauto]. }
  destruct (network env (requests st)) as [e | r] eqn:Hnet.
  { unfold auth. rewrite Htg. unfold_script. simpl. rewrite Hinit. simpl.
    destruct (ready t), (expand t); simpl; rewrite Hnet; simpl;
      (eexists _, _; split; [reflexivity | simpl]);
      (split; [intros Hl; creds | tauto]). }
  destruct (resp_body r) as [e | raw [e | data]] eqn:Hbody.
  1, 2: unfold auth; rewrite Htg; unfold_script; simpl; rewrite Hinit; simpl;
    destruct (ready t), (expand t); simpl; rewrite Hnet; simpl; rewrite Hbody;
    (eexists _, _; split; [reflexivity | simpl]);
    (split; [intros Hl; creds | tauto]).
  assert (answered env st data) as Hans by (exists r, raw; tauto).
  destruct (auth_answered st t data Htg Hinit Hans)
    as (st0 & E & Ht & Hs & _ & _ & _ & _ & _ & _ & Hc).
  destruct (auth_data_shape data st0) as (res & st' & E' & Hlog & _ & _ & Hcases).
  exists res, st'. split; [congruence |]. split.
  - rewrite Hlog. exact Hc.
  - destruct Hcases as [(_ & Ht' & Hs') | (Hok & Ht' & Hs')].
    + left. split; congruence.
    + right. exists data. repeat split; try assumption. congruence.
Qed.

(** ** Whole runs *)

Lemma run_cons (a : Action (Num := Num)) (acts : list Action) st :
  run env (a :: acts) st = run env acts (snd (perform env a st)).
Proof. reflexivity. Qed.

(** Runs without [auth] never touch the token. *)
Lemma run_keeps_token (acts : list (Action (Num := Num))) st :
  forallb (fun a => negb (is_auth a)) acts = true ->
  sessionToken (run env acts st) = sessionToken st.
Proof.
  revert st. induction acts as [| a acts IH]; intros st Hacts.
  - reflexivity.
  - simpl in Hacts. apply andb_true_iff in Hacts as [Ha Hacts].
    apply negb_true_iff in Ha.
    rewrite run_cons, (IH _ Hacts).
    apply (perform_frame a st Ha).
Qed.

(** ** Local storage is never read *)

Lemma blind_ret {A} (a : A) : blind (Num := Num) (ret a).
Proof. intros st st' E. split; [reflexivity | exact E]. Qed.

Lemma blind_throw {A} (e : JsError) : blind (Num := Num) (A := A) (throw e).
Proof. intros st st' E. split; [reflexivity | exact E]. Qed.

Lemma blind_bind {A B} (m : M Num A) (k : A -> M Num B) :
  blind m -> (forall a, blind (k a)) -> blind (bind m k).
Proof.
  intros Hm Hk st st' E. unfold bind.
  destruct (Hm st st' E) as [Hr Hs].
  destruct (m st) as [[a | e] st1], (m st') as [[a' | e'] st1'];
    simpl in *; try discriminate.
  - injection Hr as <-. apply Hk, Hs.
  - injection Hr as <-. split; [reflexivity | exact Hs].
Qed.

Lemma blind_try_catch {A} (m : M Num A) (h : JsError -> M Num A) :
  blind m -> (forall e, blind (h e)) -> blind (try_catch m h).
Proof.
  intros Hm Hh st st' E. unfold try_catch.
  destruct (Hm st st' E) as [Hr Hs].
  destruct (m st) as [[a | e] st1], (m st') as [[a' | e'] st1'];
    simpl in *; try discriminate.
  - split; [exact Hr | exact Hs].
  - injection Hr as <-. apply Hh, Hs.
Qed.

Lemma blind_modify (f : State Num -> State Num) :
  (forall st st', same_but_storage st st' -> same_but_storage (f st) (f st')) ->
  blind (modify f).
Proof. intros Hf st st' E. split; [reflexivity | apply Hf, E]. Qed.

Lemma blind_gets {A} (f : State Num -> A) :
  (forall st st', same_but_storage st st' -> f st = f st') ->
  blind (gets f).
Proof. intros Hf st st' E. simpl. split; [f_equal; apply Hf, E | exact E]. Qed.

(** A page function that does not look at local storage. *)
Ltac unaware :=
  let st := fresh "st" in let st' := fresh "st" in let E := fresh "E" in
  intros st st' E; unfold same_but_storage in *;
  destruct st, st'; simpl in *; injection E as ?; subst; reflexivity.

Ltac blind_step :=
  match goal with
  | |- blind (ret _) => apply blind_ret
  | |- blind (throw _) => apply blind_throw
  | |- blind (bind _ _) => apply blind_bind; [| intros ?]
  | |- blind (try_catch _ _) => apply blind_try_catch; [| intros ?]
  | |- blind (modify _) => apply blind_modify; unaware
  | |- blind (gets _) => apply blind_gets; unaware
  | |- blind (match ?x with _ => _ end) => destruct x
  end.

Lemma blind_renderRows (items : list (JsValue Num)) : blind (renderRows items).
Proof.
  induction items as [| p items IH]; simpl.
  - apply blind_ret.
  - apply blind_bind; [| intros _; exact IH].
    unfold renderRow, prop, print. repeat blind_step.
Qed.

Lemma blind_auth_data (data : JsValue Num) : blind (auth_data env data).
Proof.
  unfold auth_data, renderPacks, setItem_quiet, setError, showError, prop, print.
  repeat first [ apply blind_renderRows | blind_step ].
Qed.

Lemma blind_auth : blind (auth env).
Proof.
  unfold auth, bad_json, fetch, host_call, setDiag, setError, showError, emit, print.
  repeat first [ apply blind_auth_data | blind_step ].
Qed.

(** ** The claims about whole scenarios *)


(** C3, as the code has it. The script starts with a [null] token
    whatever local storage holds, and nothing [auth] does depends on what
    is stored: two page loads that differ only in local storage end in
    pages that differ only there.  The token a page load ends with is
    other than [null] only when this load's own auth request was answered
    with a truthy [ok] and a truthy [session], which is then the token;
    that value is what is written under [astra_session]. *)
Theorem stored_session_never_read (page : State Num) (stored : gmap string string) :
  sessionToken (boot page stored) = JNull /\
  (forall stored',
     same_but_storage (startup env page stored) (startup env page stored')) /\
  (sessionToken (startup env page stored) <> JNull ->
   exists data,
     answered env (boot page stored) data /\
     truthy (field data "ok") = true /\
     truthy (field data "session") = true /\
     sessionToken (startup env page stored) = field data "session" /\
     storage (startup env page stored) = stored_after env data stored).
Proof.
  split; [reflexivity |]. split.
  - intros stored'. unfold startup. apply blind_auth. reflexivity.
  - unfold startup.
    destruct (auth_shape (boot page stored)) as (r & st' & E & _ & Hcases).
    rewrite E. simpl. intros Hne.
    destruct Hcases as [[Ht _] | (data & Hans & Hok & Ht & Hs)].
    + exfalso. apply Hne. rewrite Ht. reflexivity.
    + exists data. unfold or_else in Ht.
      destruct (truthy (field data "session")) eqn:Hsess; [| congruence].
      repeat split; assumption.
Qed.

Lemma token_ok_or_else (v : JsValue Num) : token_ok (or_else v JNull).
Proof.
  unfold token_ok, or_else. destruct (truthy v) eqn:E; [right; exact E | left; reflexivity].
Qed.

Lemma token_ok_not_empty (v : JsValue Num) : token_ok v -> v <> JStr "".
Proof. intros [-> | Ht] E; [discriminate | subst; discriminate]. Qed.

Lemma token_string_answer st (data : JsValue Num) :
  session_typed env -> answered env st data ->
  token_string (or_else (field data "session") JNull).
Proof.
  intros Htyped (r & raw & Hnet & Hbody).
  unfold token_string, or_else.
  destruct (truthy (field data "session")) eqn:Ht; [| left; reflexivity].
  destruct (Htyped _ _ _ _ Hnet Hbody) as [Hn | (s & Hs)].
  - apply truthy_not_nullish in Ht. congruence.
  - right. exists s. split; [exact Hs |]. rewrite Hs in Ht. apply truthy_string, Ht.
Qed.

Lemma perform_invariant (a : Action (Num := Num)) st :
  run_invariant env st -> run_invariant env (snd (perform env a st)).
Proof.
  intros (Hok & Hstr & Hlog). destruct (is_auth a) eqn:Ha.
  - destruct a; try discriminate. simpl.
    destruct (auth_shape st) as (r & st' & E & Hc & Hcases). rewrite E. simpl.
    unfold run_invariant.
    destruct Hcases as [[Ht _] | (data & Hans & _ & Ht & _)]; rewrite Ht.
    + repeat split; auto.
    + repeat split; auto using token_ok_or_else.
      intros Htyped. exact (token_string_answer st data Htyped Hans).
  - destruct (perform_frame a st Ha) as (Ht & _ & Hc). simpl in Ht.
    unfold run_invariant. rewrite Ht. auto.
Qed.

Lemma run_keeps_invariant (acts : list (Action (Num := Num))) st :
  run_invariant env st -> run_invariant env (run env acts st).
Proof.
  revert st. induction acts as [| a acts IH]; intros st Hinv; [exact Hinv |].
  rewrite run_cons. apply IH, perform_invariant, Hinv.
Qed.

Lemma boot_invariant (page : State Num) (stored : gmap string string) :
  run_invariant env (boot page stored).
Proof.
  repeat split; simpl.
  - left. reflexivity.
  - intros _. left. reflexivity.
  - apply credentials_ok_nil.
Qed.

(** C9, as the code has it. Whatever happens on the page after it loads, the token is [null]
    or truthy, so never the empty string; when the backend sends
    [session] as a string, as its interface says, the token is [null] or a
    non-empty string.  An auth answered with a truthy [ok] and a falsy
    [session] (absent, [null] or empty) sets the token to [null] and
    leaves local storage alone.  And every request [refreshBalance] and
    [createInvoice] have sent carries a truthy token. *)
Theorem session_never_empty (page : State Num) (stored : gmap string string)
        (acts : list (Action (Num := Num))) :
  let st := run env acts (boot page stored) in
  token_ok (sessionToken st) /\
  sessionToken st <> JStr "" /\
  (session_typed env -> token_string (sessionToken st)) /\
  credentials_ok (log st) /\
  (forall st0 data,
     answered env st0 data ->
     truthy (field data "ok") = true ->
     truthy (field data "session") = false ->
     forall t, tg env = Some t -> truthy (initData_value t) = true ->
     sessionToken (snd (auth env st0)) = JNull /\
     storage (snd (auth env st0)) = storage st0).
Proof.
  intros st.
  destruct (run_keeps_invariant acts _ (boot_invariant page stored))
    as (Hok & Hstr & Hlog).
  split; [exact Hok |]. split; [exact (token_ok_not_empty _ Hok) |].
  split; [exact Hstr |]. split; [exact Hlog |].
  intros st0 data Hans Hdok Hsess t Htg Hinit.
  destruct (auth_answered st0 t data Htg Hinit Hans)
    as (st1 & E & Ht & Hs & _).
  destruct (auth_data_shape data st1) as (r & st' & E' & _ & _ & _ & Hcases).
  rewrite E, E'. simpl.
  destruct Hcases as [(Hno & _) | (_ & Ht' & Hs')]; [congruence |].
  unfold or_else in Ht'. unfold stored_after in Hs'. rewrite Hsess in Ht', Hs'.
  simpl in Hs'. split; congruence.
Qed.

(** C10, as the code has it. An auth answered with a truthy [ok] and no
    usable [session] leaves the token [null] and local storage alone, so
    afterwards, and until another auth, every [createInvoice] stops at
    once with the [no session] error and sends nothing.  The display is
    updated one field after the other, as far as the answer can be shown:
    the balance line is [<balance> раскладов] when the balance can be
    printed; then the referral field is the returned link, or a dash, when
    the link can be printed; then the pack list is rebuilt from the
    returned packages (none when the field is absent) when they are an
    array of packs that can be shown, and [auth] returns unless the
    support link cannot be printed.  With a balance that cannot be printed
    [auth] throws and none of the three is written. *)
Theorem auth_ok_without_session st (t : Host Num) (data : JsValue Num) :
  tg env = Some t ->
  truthy (initData_value t) = true ->
  answered env st data ->
  truthy (field data "ok") = true ->
  truthy (field data "session") = false ->
  exists r st',
    auth env st = (r, st') /\
    sessionToken st' = JNull /\
    storage st' = storage st /\
    (printable (field data "balance") = true ->
     balanceText st' = to_str (field data "balance") ++ " раскладов" /\
     (printable (field data "ref_link") = true ->
      refLinkValue st' = (if truthy (field data "ref_link")
                          then to_str (field data "ref_link") else "—") /\
      forall items,
        or_else (field data "packages") (JArr []) = JArr items ->
        Forall pack_ok items ->
        packs st' = List.map row_of items /\
        ((truthy (field data "support_link") = true ->
          printable (field data "support_link") = true) ->
         r = Returns tt))) /\
    (printable (field data "balance") = false ->
     r = Throws unprintable /\
     balanceText st' = balanceText st /\
     refLinkValue st' = refLinkValue st /\
     packs st' = packs st) /\
    forall (acts : list (Action (Num := Num))) (packKey : JsValue Num),
      forallb (fun a => negb (is_auth a)) acts = true ->
      let st2 := run env acts st' in
      exists st3,
        createInvoice env packKey st2 = (Returns tt, st3) /\
        errorHidden st3 = false /\
        diagErr st3 = "error: no session" /\
        log st3 = log st2 /\
        requests st3 = requests st2.
Proof.
  intros Htg Hinit Hans Hok Hsess.
  destruct (auth_answered st t data Htg Hinit Hans)
    as (st0 & E & _ & Hs & Hb0 & Hr0 & Hp0 & _).
  destruct (renderPacks_result (or_else (field data "packages") (JArr [])))
    as (r0 & rows & Erows).
  destruct (auth_data_accepts data st0 r0 rows Hok Erows)
    as (r & st' & E' & Ht & Hs' & _ & _ & _ & _ & _ & Hshow).
  assert (sessionToken st' = JNull) as Hnull
    by (rewrite Ht; unfold or_else; rewrite Hsess; reflexivity).
  exists r, st'. rewrite E, E'.
  split; [reflexivity |]. split; [exact Hnull |].
  split; [rewrite Hs'; unfold stored_after; rewrite Hsess; exact Hs |].
  split; [| split].
  - intros Hb. rewrite Hb in Hshow. destruct Hshow as [Hbal Hshow].
    split; [exact Hbal |].
    intros Hl. rewrite Hl in Hshow. destruct Hshow as (Hlink & Hpacks & Hres).
    split; [exact Hlink |].
    intros items Hitems Hwf.
    rewrite Hitems in Erows.
    pose proof (Erows st0) as Hrun. rewrite (renderPacks_wf items st0 Hwf) in Hrun.
    injection Hrun as <- Hrows.
    split; [rewrite Hpacks; symmetry; exact Hrows |].
    intros Hsup.
    destruct (truthy (field data "support_link")); [| apply Hres].
    rewrite (Hsup eq_refl) in Hres. apply Hres.
  - intros Hb. rewrite Hb in Hshow.
    destruct Hshow as (Hr & Hbal & Hlink & Hpacks & _).
    repeat split; congruence.
  - intros acts packKey Hacts st2.
    assert (sessionToken st2 = JNull) as Hnull2
      by (unfold st2; rewrite (run_keeps_token acts st' Hacts); exact Hnull).
    eexists. split.
    + apply createInvoice_stops. rewrite Hnull2. reflexivity.
    + simpl. repeat split; reflexivity.
Qed.

(** * Further properties of the script *)

(** ** refreshBalance and createInvoice, the other paths *)

(** X1. Without a truthy token [refreshBalance] does nothing: no request
    goes out and nothing on the page is written. *)
Theorem refreshBalance_no_session st :
  truthy (sessionToken st) = false ->
  exists st',
    refreshBalance env st = (Returns tt, st') /\
    log st' = (log st ++ [EvRefreshBalance])%list /\
    requests st' = requests st /\
    balanceText st' = balanceText st /\
    diagErr st' = diagErr st /\
    errorHidden st' = errorHidden st /\
    sessionToken st' = sessionToken st.
Proof.
  intros Hfalsy. unfold refreshBalance. unfold_script. simpl. rewrite Hfalsy. simpl.
  eexists. split; [reflexivity | simpl; repeat split; reflexivity].
Qed.

(** A balance request answered with a truthy [ok] and a balance that can
    be printed shows the balance and no error. *)
Lemma refreshBalance_answered st (data : JsValue Num) :
  truthy (sessionToken st) = true ->
  answered env st data ->
  truthy (field data "ok") = true ->
  printable (field data "balance") = true ->
  exists st',
    refreshBalance env st = (Returns tt, st') /\
    balanceText st' = to_str (field data "balance") ++ " раскладов" /\
    diagErr st' = diagErr st /\
    errorHidden st' = errorHidden st.
Proof.
  intros Htok (r & raw & Hnet & Hbody) Hok Hshown.
  unfold refreshBalance. unfold_script. simpl. rewrite Htok. simpl.
  rewrite Hnet. simpl. rewrite Hbody, (truthy_field_object _ _ Hok). simpl.
  rewrite Hok, Hshown. simpl.
  eexists. split; [reflexivity | simpl; repeat split; reflexivity].
Qed.

(** X2. With a token and an answer whose [ok] is truthy, [refreshBalance]
    sends one request, to [/api/balance] with the token as [session], and
    never touches the error panel.  A balance that can be printed is
    shown, and the diagnostic is left alone; one that cannot (an object
    with a [toString] of its own) is not shown: the balance line stays
    and the diagnostic reports [balance refresh failed] with the engine's
    TypeError. *)
Theorem refreshBalance_updates_balance st (data : JsValue Num) :
  truthy (sessionToken st) = true ->
  answered env st data ->
  truthy (field data "ok") = true ->
  exists st',
    refreshBalance env st = (Returns tt, st') /\
    log st' = (log st ++ [EvRefreshBalance;
                          EvFetch (API ++ "/api/balance")
                                  [("session", sessionToken st)]])%list /\
    requests st' = S (requests st) /\
    errorHidden st' = errorHidden st /\
    if printable (field data "balance") then
      balanceText st' = to_str (field data "balance") ++ " раскладов" /\
      diagErr st' = diagErr st
    else
      balanceText st' = balanceText st /\
      diagErr st' = "error: balance refresh failed: " ++ errText unprintable.
Proof.
  intros Htok (r & raw & Hnet & Hbody) Hok.
  unfold refreshBalance. unfold_script. simpl. rewrite Htok. simpl.
  rewrite Hnet. simpl. rewrite Hbody, (truthy_field_object _ _ Hok). simpl.
  rewrite Hok. simpl.
  destruct (printable (field data "balance")); simpl.
  - eexists. split; [reflexivity | simpl].
    rewrite <- app_assoc. repeat split; reflexivity.
  - eexists. split; [reflexivity | simpl].
    rewrite <- app_assoc. repeat split; reflexivity.
Qed.

(** X3. When the backend answers a purchase with a falsy [ok] or without
    an invoice link, [createInvoice] shows the error panel and calls
    nothing of the host: no invoice is opened, no link, no handler.  The
    diagnostic is the server's message, or [invoice failed] when there is
    none; a message that cannot be printed gives [invoice error:] with the
    engine's TypeError instead. *)
Theorem createInvoice_refused st (packKey data : JsValue Num) :
  truthy (sessionToken st) = true ->
  answered env st data ->
  nullish data = false ->
  truthy (field data "ok") = false \/ truthy (field data "invoice_link") = false ->
  exists st',
    createInvoice env packKey st = (Returns tt, st') /\
    errorHidden st' = false /\
    diagErr st' =
      (if printable (field data "message")
       then "error: " ++ str_or (field data "message") "invoice failed"
       else "error: invoice error: " ++ errText unprintable) /\
    log st' = (log st ++ [invoice_request st packKey])%list /\
    listeners st' = listeners st /\
    balanceText st' = balanceText st.
Proof.
  intros Htok (r & raw & Hnet & Hbody) Hnull Hbad.
  assert (negb (truthy (field data "ok")) || negb (truthy (field data "invoice_link"))
          = true) as Hcond
    by (destruct Hbad as [-> | ->]; [reflexivity | apply orb_true_r]).
  unfold createInvoice. unfold_script. simpl. rewrite Htok. simpl.
  rewrite Hnet. simpl. rewrite Hbody, Hnull. simpl. rewrite Hcond. simpl.
  rewrite !printable_or_else, !to_str_or_else.
  destruct (printable (field data "message")); simpl.
  - eexists. split; [reflexivity | simpl].
    repeat split; try reflexivity.
    unfold str_or, or_else.
    destruct (truthy (field data "message")) eqn:Hm; simpl; [rewrite ?Hm |]; reflexivity.
  - eexists. split; [reflexivity | simpl; repeat split; reflexivity].
Qed.

(** X4. When the purchase request fails in transport or parsing,
    [createInvoice] shows the error panel with [invoice error: ...] and
    calls nothing of the host. *)
Theorem createInvoice_transport_failure st (packKey : JsValue Num) (e : JsError) :
  truthy (sessionToken st) = true ->
  transport_failure env st e ->
  exists st',
    createInvoice env packKey st = (Returns tt, st') /\
    errorHidden st' = false /\
    diagErr st' = "error: invoice error: " ++ errText e /\
    log st' = (log st ++ [invoice_request st packKey])%list /\
    listeners st' = listeners st /\
    sessionToken st' = sessionToken st.
Proof.
  intros Htok Hfail. unfold transport_failure in Hfail.
  unfold createInvoice. unfold_script. simpl. rewrite Htok. simpl.
  destruct (network env (requests st)) as [e' | r]; simpl.
  { subst e'. eexists. split; [reflexivity | simpl; repeat split; reflexivity]. }
  destruct (resp_body r) as [e' | raw [e' | data]]; simpl;
    try (subst e'; eexists; split; [reflexivity | simpl; repeat split; reflexivity]).
  destruct Hfail as [Hnull ->]. rewrite Hnull. simpl.
  eexists. split; [reflexivity | simpl; repeat split; reflexivity].
Qed.

(** X5. When [tg.openInvoice] throws, [createInvoice] shows the error
    panel, attaches no handler and still hands the link to
    [tg.openTelegramLink]; the diagnostic names the failure of
    [openInvoice], or that of the link opener if it throws as well. *)
Theorem createInvoice_open_throws st (packKey link : JsValue Num) (t : Host Num)
        (opener : JsValue Num -> OpenOutcome) (e : JsError) :
  truthy (sessionToken st) = true ->
  invoice_granted env st link ->
  tg env = Some t ->
  openInvoice t = Some opener ->
  opener link = OpenThrows e ->
  exists st',
    createInvoice env packKey st = (Returns tt, st') /\
    errorHidden st' = false /\
    log st' = (log st ++ [invoice_request st packKey; EvOpenInvoice link;
                          EvOpenTelegramLink link])%list /\
    listeners st' = listeners st /\
    diagErr st' = match openTelegramLink t link with
                  | None => "error: openInvoice failed: " ++ errText e
                  | Some e' => "error: invoice error: " ++ errText e'
                  end.
Proof.
  intros Htok (r & raw & data & Hnet & Hbody & Hok & Hlink & Htruthy) Htg Hsome Hopen.
  pose proof (truthy_field_object _ _ Hok) as Hobj. subst link.
  unfold createInvoice. unfold_script. simpl.
  rewrite Htok. simpl. rewrite Hnet. simpl. rewrite Hbody, Hobj. simpl.
  rewrite Hok, Htruthy. simpl. rewrite Htg, Hsome. simpl. rewrite Hopen. simpl.
  destruct (openTelegramLink t (field data "invoice_link")); simpl;
    (eexists; split; [reflexivity | simpl]);
    rewrite <- !app_assoc; repeat split; reflexivity.
Qed.

(** X6. Neither [refreshBalance] nor [createInvoice] ever rejects: every
    throw of the network, of the parser or of the host ends in one of
    their [catch] blocks. *)
Theorem guarded_operations_never_reject st (packKey : JsValue Num) :
  fst (refreshBalance env st) = Returns tt /\
  fst (createInvoice env packKey st) = Returns tt.
Proof.
  split.
  - destruct (refreshBalance_frame st) as (st' & -> & _). reflexivity.
  - unfold createInvoice, open_invoice. unfold_script. simpl.
    repeat (branch; simpl); reflexivity.
Qed.

(** ** auth, the other paths *)

(** X7. An auth answer that is the JSON value [null] makes [auth] reject
    with the engine's [TypeError] on reading [ok]: the error panel is not
    shown and nothing of the session or the display is written. *)
Theorem auth_null_body_rejects st (t : Host Num) (data : JsValue Num) :
  tg env = Some t ->
  truthy (initData_value t) = true ->
  answered env st data ->
  nullish data = true ->
  exists st',
    auth env st = (Throws (null_read "ok"), st') /\
    errorHidden st' = errorHidden st /\
    sessionToken st' = sessionToken st /\
    storage st' = storage st /\
    balanceText st' = balanceText st /\
    refLinkValue st' = refLinkValue st /\
    packs st' = packs st.
Proof.
  intros Htg Hinit Hans Hnull.
  destruct (auth_answered st t data Htg Hinit Hans)
    as (st0 & E & Ht & Hs & Hb & Hr & Hp & Hh & _).
  exists st0. split; [| repeat split; assumption].
  rewrite E. unfold auth_data, prop, bind, throw. rewrite Hnull. reflexivity.
Qed.

(** X8. When the auth request is rejected by the network, [auth] returns
    normally with the error panel shown and the diagnostic
    [fetch auth failed: ...]; session and display are untouched. *)
Theorem auth_fetch_failure st (t : Host Num) (e : JsError) :
  tg env = Some t ->
  truthy (initData_value t) = true ->
  network env (requests st) = FetchRejects e ->
  exists st',
    auth env st = (Returns tt, st') /\
    errorHidden st' = false /\
    diagErr st' = "error: fetch auth failed: " ++ errText e /\
    sessionToken st' = sessionToken st /\
    storage st' = storage st /\
    balanceText st' = balanceText st /\
    refLinkValue st' = refLinkValue st /\
    packs st' = packs st.
Proof.
  intros Htg Hinit Hnet.
  unfold auth. rewrite Htg. unfold_script. simpl. rewrite Hinit. simpl.
  destruct (ready t), (expand t); simpl; rewrite Hnet; simpl;
    (eexists; split; [reflexivity | simpl; repeat split; reflexivity]).
Qed.

(** A text of at most [n] units is its own first [n] units. *)
Lemma slice_units_whole (s : string) (n pending : nat) :
  units pending s <= n -> slice_units n pending s = s.
Proof.
  revert n pending.
  induction s as [| c s IH]; intros n pending Hn; [reflexivity |].
  destruct pending as [| p]; simpl in *.
  - destruct (Nat.leb_spec (char_units c) n) as [Hc | Hc]; [| lia].
    rewrite IH by lia. reflexivity.
  - rewrite IH by exact Hn. reflexivity.
Qed.

(** The first [n] units of a text are at most [n] units. *)
Lemma slice_units_short (s : string) (n pending : nat) :
  units pending (slice_units n pending s) <= n.
Proof.
  revert n pending.
  induction s as [| c s IH]; intros n pending; [simpl; lia |].
  destruct pending as [| p]; simpl.
  - destruct (Nat.leb_spec (char_units c) n) as [Hc | Hc]; simpl.
    + specialize (IH (n - char_units c) (char_bytes c - 1)). lia.
    + destruct n as [| [| n]]; simpl; try lia.
      destruct s as [| b1 [| b2 s]]; simpl; lia.
  - apply IH.
Qed.

(** X9. When the auth answer cannot be read or is not JSON, [auth]
    returns normally with the error panel shown; the diagnostic gives the
    status ([unknown] when it is falsy), the error, and a preview of the
    body: [empty] when no text was read, otherwise a text of at most 200
    UTF-16 units, which is the body itself when the body has at most
    200.  Session and display are untouched. *)
Theorem auth_bad_json st (t : Host Num) (r : Response Num) (raw : string) (e : JsError) :
  tg env = Some t ->
  truthy (initData_value t) = true ->
  network env (requests st) = FetchResponds r ->
  resp_body r = BodyUnreadable e /\ raw = "" \/ resp_body r = BodyText raw (inl e) ->
  let status := if num_truthy (resp_status r) then num_str (resp_status r)
                else "unknown" in
  exists st' preview,
    auth env st = (Returns tt, st') /\
    errorHidden st' = false /\
    diagErr st' = bad_json_line status e preview /\
    (raw = "" -> preview = "empty") /\
    (raw <> "" -> js_length preview <= 200) /\
    (raw <> "" -> js_length raw <= 200 -> preview = raw) /\
    sessionToken st' = sessionToken st /\
    storage st' = storage st /\
    balanceText st' = balanceText st /\
    packs st' = packs st.
Proof.
  intros Htg Hinit Hnet Hbody status.
  assert (exists st', auth env st = (Returns tt, st') /\
            errorHidden st' = false /\
            diagErr st' = bad_json_line status e
                            (if String.eqb raw "" then "empty"
                             else js_slice 200 raw) /\
            sessionToken st' = sessionToken st /\ storage st' = storage st /\
            balanceText st' = balanceText st /\ packs st' = packs st)
    as (st' & E & Hh & Hd & Hrest).
  { unfold auth. rewrite Htg. unfold_script. simpl. rewrite Hinit. simpl.
    destruct Hbody as [[Hb ->] | Hb];
      destruct (ready t), (expand t); simpl; rewrite Hnet; simpl; rewrite Hb;
      (eexists; split; [reflexivity | simpl; repeat split; reflexivity]). }
  exists st', (if String.eqb raw "" then "empty" else js_slice 200 raw).
  split; [exact E |]. split; [exact Hh |]. split; [exact Hd |].
  split; [| split; [| split; [| exact Hrest]]].
  - intros ->. reflexivity.
  - intros Hne. destruct (String.eqb_spec raw ""); [congruence |].
    apply slice_units_short.
  - intros Hne Hlen. destruct (String.eqb_spec raw ""); [congruence |].
    apply slice_units_whole, Hlen.
Qed.

(** X10. An auth answer with a truthy [ok] and a truthy [session] signs
    the page in: the token is that session, whatever becomes of the rest.
    Its text is written to local storage under [astra_session] unless it
    cannot be printed or [setItem] throws; then storage is left as it was
    and everything else goes on: the balance line and the referral field
    are set all the same, each provided it can be printed and so could
    the one before. *)
Theorem auth_signs_in st (t : Host Num) (data : JsValue Num) :
  tg env = Some t ->
  truthy (initData_value t) = true ->
  answered env st data ->
  truthy (field data "ok") = true ->
  truthy (field data "session") = true ->
  exists r st',
    auth env st = (r, st') /\
    sessionToken st' = field data "session" /\
    storage st' = (if printable (field data "session") then
                     match setItem_throws env with
                     | None => <[SESSION_KEY := to_str (field data "session")]> (storage st)
                     | Some _ => storage st
                     end
                   else storage st) /\
    errorHidden st' = errorHidden st /\
    (printable (field data "balance") = true ->
     balanceText st' = to_str (field data "balance") ++ " раскладов" /\
     (printable (field data "ref_link") = true ->
      refLinkValue st' = str_or (field data "ref_link") "—")).
Proof.
  intros Htg Hinit Hans Hok Hsess.
  destruct (auth_answered st t data Htg Hinit Hans)
    as (st0 & E & _ & Hs & _ & _ & _ & Hh & _).
  destruct (renderPacks_result (or_else (field data "packages") (JArr [])))
    as (r0 & rows & Er).
  destruct (auth_data_accepts data st0 r0 rows Hok Er)
    as (r & st' & E' & Ht' & Hs' & Hh' & _ & _ & _ & _ & Hshow).
  exists r, st'. split; [congruence |].
  unfold or_else in Ht'. unfold stored_after in Hs'. rewrite Hsess in Ht', Hs'.
  simpl in Hs'. rewrite Hs in Hs'.
  split; [exact Ht' |]. split; [exact Hs' |]. split; [congruence |].
  intros Hb. rewrite Hb in Hshow. destruct Hshow as [Hbal Hshow].
  split; [exact Hbal |].
  intros Hl. rewrite Hl in Hshow. apply Hshow.
Qed.


(** X12. [renderPacks] replaces the list: what it leaves does not depend
    on the rows that were there, and rendering the same packs again
    changes nothing. *)
Theorem renderPacks_replaces (ps : JsValue Num) (old : list (PackRow Num)) st :
  renderPacks ps (with_packs old st) = renderPacks ps st /\
  renderPacks ps (snd (renderPacks ps st)) = renderPacks ps st.
Proof.
  destruct (renderPacks_result ps) as (r & rows & E).
  rewrite !E. simpl. split; reflexivity.
Qed.

(** X13. A [null] among the packs stops [renderPacks] with the engine's
    [TypeError]: the packs before it, which can be shown, are on the
    page, the ones after it are not. *)
Theorem renderPacks_stops_at_null (good rest : list (JsValue Num)) (p : JsValue Num) st :
  Forall pack_ok good ->
  nullish p = true ->
  renderPacks (JArr (good ++ p :: rest)) st =
    (Throws (null_read "spreads"), with_packs (List.map row_of good) st).
Proof.
  intros Hgood Hp.
  assert (forall s, renderRows (good ++ p :: rest) s =
                    (Throws (null_read "spreads"),
                     with_packs (packs s ++ List.map row_of good) s)) as E.
  { induction Hgood as [| x good (Hx & Hs & Hr) _ IH]; intros s; simpl.
    - unfold bind. rewrite renderRow_run, Hp.
      rewrite app_nil_r, with_packs_same. reflexivity.
    - unfold bind. rewrite renderRow_run, Hx, Hs, Hr. simpl.
      rewrite IH. simpl. rewrite <- app_assoc. reflexivity. }
  unfold renderPacks, bind, modify. rewrite E. reflexivity.
Qed.

(** The page at the point where [auth] inspects the answer, as far as
    the display goes. *)
Lemma auth_answered_display st (t : Host Num) (data : JsValue Num) :
  tg env = Some t ->
  truthy (initData_value t) = true ->
  answered env st data ->
  exists st0,
    auth env st = auth_data env data st0 /\
    sessionToken st0 = sessionToken st /\
    storage st0 = storage st /\
    supportHref st0 = supportHref st /\
    errorHidden st0 = errorHidden st /\
    packs st0 = packs st /\
    diagTg st0 = "tg available: yes" /\
    diagUser st0 = "user id: " ++ str_or (user_id t) "—".
Proof.
  intros Htg Hinit (r & raw & Hnet & Hbody).
  unfold auth. rewrite Htg. unfold_script. simpl. rewrite Hinit. simpl.
  destruct (ready t), (expand t); simpl; rewrite Hnet; simpl; rewrite Hbody;
    (eexists; split; [reflexivity | simpl; rewrite ?Htg]); repeat split; reflexivity.
Qed.

(** X14. When the answer's [packages] is truthy and not an array, and
    balance and referral link can be printed, [auth] rejects with the
    engine's [TypeError] for [packs.forEach] after it has set the token,
    the balance line and the referral field and emptied the pack list;
    the support link is not updated and the error panel is not shown. *)
Theorem auth_stops_at_bad_packages st (t : Host Num) (data : JsValue Num) :
  tg env = Some t ->
  truthy (initData_value t) = true ->
  answered env st data ->
  truthy (field data "ok") = true ->
  printable (field data "balance") = true ->
  printable (field data "ref_link") = true ->
  truthy (field data "packages") = true ->
  (forall items, field data "packages" <> JArr items) ->
  exists st',
    auth env st = (Throws (not_function "packs.forEach"), st') /\
    sessionToken st' = or_else (field data "session") JNull /\
    balanceText st' = to_str (field data "balance") ++ " раскладов" /\
    refLinkValue st' = str_or (field data "ref_link") "—" /\
    packs st' = [] /\
    supportHref st' = supportHref st /\
    errorHidden st' = errorHidden st.
Proof.
  intros Htg Hinit Hans Hok Hbal Hlink Hpk Hnot.
  destruct (auth_answered_display st t data Htg Hinit Hans)
    as (st0 & E & _ & _ & Hsup0 & Hh & _).
  assert (forall s, renderPacks (or_else (field data "packages") (JArr [])) s
                    = (Throws (not_function "packs.forEach"), with_packs [] s)) as Er.
  { intros s. unfold or_else. rewrite Hpk.
    destruct (field data "packages") as [| | b | n | x | items | fields];
      try discriminate; try reflexivity.
    exfalso. exact (Hnot items eq_refl). }
  destruct (auth_data_accepts data st0 _ _ Hok Er)
    as (r & st' & E' & Ht' & _ & Hh' & _ & _ & _ & _ & Hshow).
  rewrite Hbal, Hlink in Hshow.
  destruct Hshow as (Hb' & Hr' & Hp' & -> & Hsup).
  exists st'. split; [congruence |].
  repeat split; try assumption; congruence.
Qed.

(** ** Properties kept by every operation *)

Lemma keeps_ret {A} (I : State Num -> Prop) (a : A) : keeps I (ret a).
Proof. intros st HI. exact HI. Qed.

Lemma keeps_throw {A} (I : State Num -> Prop) (e : JsError) :
  keeps (A := A) I (throw e).
Proof. intros st HI. exact HI. Qed.

Lemma keeps_bind {A B} (I : State Num -> Prop) (m : M Num A) (k : A -> M Num B) :
  keeps I m -> (forall a, keeps I (k a)) -> keeps I (bind m k).
Proof.
  intros Hm Hk st HI. unfold bind. specialize (Hm st HI).
  destruct (m st) as [[a | e] st1]; simpl in *; [apply Hk, Hm | exact Hm].
Qed.

Lemma keeps_try_catch {A} (I : State Num -> Prop) (m : M Num A)
      (h : JsError -> M Num A) :
  keeps I m -> (forall e, keeps I (h e)) -> keeps I (try_catch m h).
Proof.
  intros Hm Hh st HI. unfold try_catch. specialize (Hm st HI).
  destruct (m st) as [[a | e] st1]; simpl in *; [exact Hm | apply Hh, Hm].
Qed.

Lemma keeps_detached {A} (I : State Num -> Prop) (m : M Num A) :
  keeps I m -> keeps I (detached m).
Proof. intros Hm st HI. exact (Hm st HI). Qed.

Lemma keeps_modify (I : State Num -> Prop) (f : State Num -> State Num) :
  (forall st, I st -> I (f st)) -> keeps I (modify f).
Proof. intros Hf st HI. exact (Hf st HI). Qed.

Lemma keeps_gets {A} (I : State Num -> Prop) (f : State Num -> A) : keeps I (gets f).
Proof. intros st HI. exact HI. Qed.


(** Take the script apart; [side] closes what a write to the page asks. *)
Ltac keeps_with side :=
  repeat match goal with
  | |- keeps _ (ret _) => apply keeps_ret
  | |- keeps _ (throw _) => apply keeps_throw
  | |- keeps _ (bind _ _) => apply keeps_bind; [| intros ?]
  | |- keeps _ (try_catch _ _) => apply keeps_try_catch; [| intros ?]
  | |- keeps _ (detached _) => apply keeps_detached
  | |- keeps _ (gets _) => apply keeps_gets
  | |- keeps _ (modify _) => apply keeps_modify; side
  | |- keeps _ (match ?x with _ => _ end) => destruct x
  end.

Ltac unfold_ops :=
  unfold react, perform, click_pack, click_support, deliver, onStatus, auth,
    auth_data, renderPacks, bad_json, setItem_quiet, createInvoice, open_invoice,
    open_link, refreshBalance, fetch, json, prop, host_call, setDiag, setError,
    showError, print, emit.

Lemma keeps_renderRows (I : State Num -> Prop) (items : list (JsValue Num)) :
  (forall st rows, I st -> I (with_packs rows st)) -> keeps I (renderRows items).
Proof.
  intros Hpacks. induction items as [| p items IH]; simpl.
  - apply keeps_ret.
  - apply keeps_bind; [| intros _; exact IH].
    unfold renderRow, prop, print. keeps_with ltac:(intros st HI; apply Hpacks, HI).
Qed.

Lemma session_cons (g : Gesture (Num := Num)) (gs : list Gesture) st :
  session env (g :: gs) st = session env gs (snd (react env g st)).
Proof. reflexivity. Qed.

Lemma session_keeps (I : State Num -> Prop) (gs : list (Gesture (Num := Num))) st :
  (forall g, In g gs -> keeps I (react env g)) -> I st -> I (session env gs st).
Proof.
  revert st. induction gs as [| g gs IH]; intros st Hall HI; [exact HI |].
  rewrite session_cons. apply IH.
  - intros g' Hin. apply Hall. right. exact Hin.
  - apply (Hall g); [left; reflexivity | exact HI].
Qed.

(** X21. The error panel, once shown, stays shown: nothing on the page
    hides it again, whatever is clicked, delivered or answered. *)
Theorem error_panel_stays (gs : list (Gesture (Num := Num))) st :
  errorHidden st = false -> errorHidden (session env gs st) = false.
Proof.
  intros Hshown.
  apply (session_keeps (fun s => errorHidden s = false)); [| exact Hshown].
  intros g _. destruct g as [[| | packKey | i | c status] |]; simpl; unfold_ops;
    keeps_with ltac:(intros s Hs; simpl; first [exact Hs | reflexivity]);
    apply keeps_renderRows; intros s rows Hs; exact Hs.
Qed.

Lemma requests_home_snoc (l : list (Event Num)) (ev : Event Num) :
  requests_home l ->
  (forall url body, ev = EvFetch url body -> endpoint url) ->
  requests_home (l ++ [ev]).
Proof.
  intros Hl Hev url body Hin. apply in_app_or in Hin as [Hin | [E | []]].
  - exact (Hl _ _ Hin).
  - exact (Hev _ _ E).
Qed.

Ltac at_home :=
  let s := fresh "s" in let Hs := fresh "Hs" in
  intros s Hs; simpl;
  first [ exact Hs
        | apply requests_home_snoc;
          [ exact Hs
          | let E := fresh in
            intros ? ? E;
            first [ discriminate E
                  | injection E as <- _; unfold endpoint; auto ] ] ].

(** X20. Every request the page ever sends goes to one of three
    addresses: [/api/auth], [/api/balance] or [/api/invoice] of the
    backend.  No click, status or answer makes it send anything else. *)
Theorem requests_stay_home (gs : list (Gesture (Num := Num)))
        (page : State Num) (stored : gmap string string) :
  requests_home (log (session env gs (boot page stored))).
Proof.
  apply (session_keeps (fun s => requests_home (log s))).
  - intros g _. destruct g as [[| | packKey | i | c status] |]; simpl; unfold_ops;
      keeps_with at_home;
      apply keeps_renderRows; intros s rows Hs; exact Hs.
  - intros url body [].
Qed.

(** X22. Only [auth] writes the session: refreshing the balance, buying,
    payment statuses and the support link leave the token and local
    storage exactly as they were. *)
Theorem only_auth_signs_in (gs : list (Gesture (Num := Num))) st :
  forallb (fun g => negb (signs_in g)) gs = true ->
  sessionToken (session env gs st) = sessionToken st /\
  storage (session env gs st) = storage st.
Proof.
  intros Hgs.
  apply (session_keeps
           (fun s => sessionToken s = sessionToken st /\ storage s = storage st));
    [| split; reflexivity].
  intros g Hin.
  assert (signs_in g = false) as Hg.
  { rewrite forallb_forall in Hgs. apply negb_true_iff, Hgs, Hin. }
  destruct g as [[| | packKey | i | c status] |]; try discriminate;
    simpl; unfold_ops; keeps_with ltac:(intros s Hs; exact Hs).
Qed.


(** ** Buttons, links and payments end to end *)

Lemma createInvoice_sends st (packKey : JsValue Num) :
  truthy (sessionToken st) = true ->
  exists evs,
    log (snd (createInvoice env packKey st)) =
      (log st ++ invoice_request st packKey :: evs)%list.
Proof.
  intros Htok. unfold createInvoice, open_invoice. unfold_script. simpl.
  rewrite Htok. simpl.
  repeat (branch; simpl); rewrite <- ?app_assoc; simpl; eexists; reflexivity.
Qed.

(** X15. After [renderPacks] on packs that can all be shown, the i-th
    button belongs to the i-th pack: its row shows that pack, and a click
    on it inside Telegram, with a session, sends the purchase request for
    that pack's key. *)
Theorem pack_button_buys_its_pack st (items : list (JsValue Num)) (i : nat)
        (p : JsValue Num) (t : Host Num) :
  Forall pack_ok items ->
  items !! i = Some p ->
  tg env = Some t ->
  truthy (sessionToken st) = true ->
  let st1 := snd (renderPacks (JArr items) st) in
  packs st1 !! i = Some (row_of p) /\
  exists evs,
    log (snd (perform env (ActClick i) st1)) =
      (log st ++ invoice_request st (field p "key") :: evs)%list.
Proof.
  intros Hwf Hi Htg Htok st1.
  assert (st1 = with_packs (List.map row_of items) st) as ->.
  { unfold st1, renderPacks, bind, modify. rewrite renderRows_wf by exact Hwf.
    reflexivity. }
  assert (List.map row_of items !! i = Some (row_of p)) as Hrow.
  { change (List.map row_of items) with (row_of <$> items).
    rewrite list_lookup_fmap, Hi. reflexivity. }
  split; [exact Hrow |].
  unfold perform, bind, gets. simpl. rewrite Hrow.
  unfold click_pack. rewrite Htg. unfold detached. simpl.
  apply (createInvoice_sends (with_packs (List.map row_of items) st) (field p "key")).
  exact Htok.
Qed.

(** X23. A payment reported as [paid] through the callback shows the new
    balance: after [createInvoice] has opened the invoice, the handler's
    [refreshBalance] writes the balance of the next answer, when it can
    be printed, and shows no error. *)
Theorem paid_shows_new_balance st (packKey link data : JsValue Num) (t : Host Num)
        (opener : JsValue Num -> OpenOutcome) (thenable : bool) :
  truthy (sessionToken st) = true ->
  invoice_granted env st link ->
  tg env = Some t ->
  openInvoice t = Some opener ->
  opener link = OpenReturns thenable ->
  answered env (snd (createInvoice env packKey st)) data ->
  truthy (field data "ok") = true ->
  printable (field data "balance") = true ->
  exists st2,
    deliver env Callback "paid" (snd (createInvoice env packKey st)) = (Returns tt, st2) /\
    balanceText st2 = to_str (field data "balance") ++ " раскладов" /\
    errorHidden st2 = errorHidden st /\
    diagErr st2 = diagErr st.
Proof.
  intros Htok Hgrant Htg Hsome Hopen Hans Hok Hshown.
  destruct (createInvoice_opened st packKey link t opener thenable
              Htok Hgrant Htg Hsome Hopen) as (st1 & E & _ & Hl & Hh & Hd).
  destruct (createInvoice_frame st packKey) as (Ht & _).
  rewrite E in *. simpl in *.
  assert (truthy (sessionToken st1) = true) as Htok1 by (rewrite Ht; exact Htok).
  destruct (refreshBalance_answered st1 data Htok1 Hans Hok Hshown)
    as (st2 & E2 & Hb & Hd2 & Hh2).
  exists st2. unfold deliver, bind, gets. simpl.
  rewrite bool_decide_eq_true_2
    by (rewrite Hl; apply elem_of_app; right; apply list_elem_of_here).
  unfold onStatus. simpl. unfold detached. rewrite E2. simpl.
  repeat split; congruence.
Qed.

(** X24. The pack button of the older script talks to the bot, not to
    the backend: inside Telegram it sends the pack key with
    [tg.sendData], then closes the page unless [sendData] threw; it sends
    no request and needs no session.  Outside Telegram it does nothing. *)
Theorem miniapp_button_sends_data st (sendData close : option JsError)
        (row : PackRow Num) :
  let st' := snd (buy_pack_miniapp env sendData close row st) in
  log st' =
    (log st ++
     match tg env with
     | None => []
     | Some _ =>
         EvSendData [("action", JStr "buy_pack"); ("pack", row_key row)]
         :: match sendData with None => [EvClose] | Some _ => [] end
     end)%list /\
  requests st' = requests st /\
  sessionToken st' = sessionToken st /\
  errorHidden st' = errorHidden st.
Proof.
  unfold buy_pack_miniapp. unfold_script. simpl.
  destruct (tg env); simpl.
  - destruct sendData, close; simpl; rewrite <- ?app_assoc; repeat split; reflexivity.
  - rewrite app_nil_r. repeat split; reflexivity.
Qed.

(** ** The support link *)

Lemma click_support_shape st (t : Host Num) :
  tg env = Some t ->
  log (snd (click_support env st)) =
    (log st ++ (if String.eqb (supportHref st) "" then []
                else [EvOpenTelegramLink (JStr (supportHref st))]))%list /\
  requests (snd (click_support env st)) = requests st.
Proof.
  intros Htg. unfold click_support. unfold_script. simpl. rewrite Htg.
  destruct (String.eqb (supportHref st) ""); simpl.
  - rewrite app_nil_r. split; reflexivity.
  - destruct (openTelegramLink t (JStr (supportHref st))); simpl; split; reflexivity.
Qed.

(** X16. A click on the support link opens it through the host, and only
    then: outside Telegram or without a link nothing happens; otherwise
    the one thing done is [tg.openTelegramLink] on the link, with no
    request and nothing written on the page. *)
Theorem click_support_opens st :
  let st' := snd (click_support env st) in
  log st' =
    (log st ++
     match tg env with
     | None => []
     | Some _ => if String.eqb (supportHref st) "" then []
                 else [EvOpenTelegramLink (JStr (supportHref st))]
     end)%list /\
  requests st' = requests st /\
  sessionToken st' = sessionToken st /\
  errorHidden st' = errorHidden st /\
  diagErr st' = diagErr st.
Proof.
  unfold click_support. unfold_script. simpl.
  destruct (tg env) as [t |]; simpl.
  - destruct (String.eqb (supportHref st) ""); simpl.
    + rewrite app_nil_r. repeat split; reflexivity.
    + destruct (openTelegramLink t (JStr (supportHref st))); simpl;
        repeat split; reflexivity.
  - rewrite app_nil_r. repeat split; reflexivity.
Qed.

(** X17. The support link follows the backend: after an auth answered
    with a truthy [ok], a balance and a referral link that can be printed,
    packs that can be shown and a [support_link], a click opens exactly
    that link. *)
Theorem support_link_from_auth st (t : Host Num) (data : JsValue Num)
        (items : list (JsValue Num)) (support : string) :
  tg env = Some t ->
  truthy (initData_value t) = true ->
  answered env st data ->
  truthy (field data "ok") = true ->
  printable (field data "balance") = true ->
  printable (field data "ref_link") = true ->
  or_else (field data "packages") (JArr []) = JArr items ->
  Forall pack_ok items ->
  field data "support_link" = JStr support ->
  support <> "" ->
  let st1 := snd (auth env st) in
  supportHref st1 = support /\
  log (snd (click_support env st1)) =
    (log st1 ++ [EvOpenTelegramLink (JStr support)])%list.
Proof.
  intros Htg Hinit Hans Hok Hbal Hlink Hpacks Hwf Hsup Hne st1.
  destruct (auth_answered_display st t data Htg Hinit Hans) as (st0 & E & _).
  assert (forall s, renderPacks (or_else (field data "packages") (JArr [])) s
                    = (Returns tt, with_packs (List.map row_of items) s)) as Er.
  { intros s. rewrite Hpacks. apply renderPacks_wf, Hwf. }
  destruct (auth_data_accepts data st0 _ _ Hok Er)
    as (r & st' & E' & _ & _ & _ & _ & _ & _ & _ & Hshow).
  assert (st1 = st') as -> by (unfold st1; rewrite E, E'; reflexivity).
  assert (String.eqb support "" = false) as Hs by (apply String.eqb_neq, Hne).
  rewrite Hbal, Hlink, Hsup in Hshow. simpl in Hshow. rewrite Hs in Hshow.
  simpl in Hshow. destruct Hshow as (_ & _ & _ & _ & Hhref).
  split; [exact Hhref |].
  destruct (click_support_shape st' t Htg) as [Hlog _].
  rewrite Hlog, Hhref, Hs. reflexivity.
Qed.

(** ** The copy button *)


Lemma fire_timers (ts : list (nat * string)) (label : string) (c : option string)
      (delay : nat) (final : string) :
  Nat.iter (length (ts ++ [(delay, final)])) fire_timer
           (mkChrome label c (ts ++ [(delay, final)]))
  = mkChrome final c [].
Proof.
  revert label. induction ts as [| [d l] ts IH]; intros label.
  - reflexivity.
  - simpl length. rewrite Nat.iter_succ_r.
    change (fire_timer (mkChrome label c (((d, l) :: ts) ++ [(delay, final)])))
      with (mkChrome l c (ts ++ [(delay, final)])).
    apply IH.
Qed.

(** X19. A successful copy shows [Скопировано], and once the timers set
    so far have fired the label is [Скопировать] again, whatever it was
    before; the text stays on the clipboard. *)
Theorem copy_label_restored (writeText : string -> option JsError) st (ch : Chrome) :
  refLinkValue st <> "" ->
  refLinkValue st <> "—" ->
  writeText (refLinkValue st) = None ->
  let ch' := click_copy writeText st ch in
  copyLabel ch' = "Скопировано" /\
  Nat.iter (length (timers ch')) fire_timer ch' =
    mkChrome "Скопировать" (Some (refLinkValue st)) [].
Proof.
  intros Hne Hdash Hok.
  apply String.eqb_neq in Hne, Hdash.
  unfold click_copy. rewrite Hne, Hdash, Hok. simpl.
  split; [reflexivity | apply fire_timers].
Qed.

(** X26. What the copy button copies is what the backend sent: after an
    auth answered with a truthy [ok] and a balance that can be printed, a
    click does nothing when the answer had no referral link, and copies
    the link when it had one, whether or not the packs could be
    rendered. *)
Theorem copy_follows_auth (writeText : string -> option JsError) st (ch : Chrome)
        (t : Host Num) (data : JsValue Num) :
  tg env = Some t ->
  truthy (initData_value t) = true ->
  answered env st data ->
  truthy (field data "ok") = true ->
  printable (field data "balance") = true ->
  let st1 := snd (auth env st) in
  (truthy (field data "ref_link") = false -> click_copy writeText st1 ch = ch) /\
  (forall l, field data "ref_link" = JStr l -> l <> "" -> l <> "—" ->
             writeText l = None ->
             clipboard (click_copy writeText st1 ch) = Some l).
Proof.
  intros Htg Hinit Hans Hok Hbal st1.
  destruct (auth_answered_display st t data Htg Hinit Hans) as (st0 & E & _).
  destruct (renderPacks_result (or_else (field data "packages") (JArr [])))
    as (r0 & rows & Er).
  destruct (auth_data_accepts data st0 r0 rows Hok Er)
    as (r & st' & E' & _ & _ & _ & _ & _ & _ & _ & Hshow).
  assert (st1 = st') as -> by (unfold st1; rewrite E, E'; reflexivity).
  rewrite Hbal in Hshow. destruct Hshow as [_ Hshow].
  unfold click_copy. split.
  - intros Hfalsy. rewrite (printable_falsy _ Hfalsy) in Hshow.
    destruct Hshow as [-> _]. unfold str_or. rewrite Hfalsy. simpl. reflexivity.
  - intros l Hl Hne Hdash Hw. rewrite Hl in Hshow. simpl in Hshow.
    destruct Hshow as [-> _]. unfold str_or.
    assert (truthy (@JStr Num l) = true) as -> by (apply truthy_string, Hne).
    simpl. apply String.eqb_neq in Hne, Hdash. rewrite Hne, Hdash, Hw. reflexivity.
Qed.

(** ** The address of the backend *)

Lemma strip_keeps_clean (s : string) :
  (forall r, s <> r ++ "/") -> strip_trailing_slashes s = s.
Proof.
  induction s as [| c rest IH]; intros Hclean; [reflexivity |].
  simpl. destruct rest as [| d rest'].
  - simpl. destruct (Ascii.eqb_spec c "/"); [| reflexivity].
    exfalso. apply (Hclean ""). subst. reflexivity.
  - rewrite IH; [reflexivity |].
    intros r E. apply (Hclean (String c r)). simpl. rewrite E. reflexivity.
Qed.

Lemma strip_is_clean (s r : string) : strip_trailing_slashes s <> r ++ "/".
Proof.
  revert r. induction s as [| c rest IH]; intros r; simpl.
  - destruct r; discriminate.
  - destruct (strip_trailing_slashes rest) as [| d rest'] eqn:E.
    + destruct (Ascii.eqb_spec c "/").
      * destruct r; discriminate.
      * destruct r as [| c' [| c'' r']]; simpl; try discriminate.
        intros [= ->]. congruence.
    + destruct r as [| c' r']; simpl.
      * discriminate.
      * intros [= -> Hr]. exact (IH r' Hr).
Qed.

(** X27. Taking the trailing slashes off an address removes slashes
    only, and only from the end: the address is the result followed by
    slashes, the result does not end in a slash, and an address that does
    not end in a slash is returned as it is. *)
Theorem strip_trailing_slashes_spec (s : string) :
  (exists n, s = strip_trailing_slashes s ++ slashes n) /\
  (forall r, strip_trailing_slashes s <> r ++ "/") /\
  strip_trailing_slashes (strip_trailing_slashes s) = strip_trailing_slashes s /\
  ((forall r, s <> r ++ "/") -> strip_trailing_slashes s = s).
Proof.
  split; [| split; [| split]].
  - induction s as [| c rest (n & IH)].
    + exists 0. reflexivity.
    + simpl. destruct (strip_trailing_slashes rest) as [| d rest'] eqn:E.
      * destruct (Ascii.eqb_spec c "/").
        -- exists (S n). subst c. simpl. rewrite IH at 1. reflexivity.
        -- exists n. simpl. rewrite IH at 1. reflexivity.
      * exists n. simpl. rewrite IH at 1. reflexivity.
  - apply strip_is_clean.
  - apply strip_keeps_clean, strip_is_clean.
  - apply strip_keeps_clean.
Qed.

End Facts.

(** * The theorems at work on the sample pages *)

Import Sample.

Example API_value : API = "https://api.astrabotai.online".
Proof. reflexivity. Qed.

Example strip_trailing_slashes_run :
  strip_trailing_slashes "https://host/api//" = "https://host/api".
Proof. reflexivity. Qed.

Example to_str_array :
  to_str (JArr [JNum 1%Z; JNull; JArr [JStr "a"; JBool true]; not_ok]) =
  "1,,a,true,[object Object]".
Proof. vm_compute. reflexivity. Qed.

(** An object prints unless it has a [toString] of its own, also inside
    an array. *)
Example printable_run :
  printable not_ok = true /\
  printable (field auth_odd_error "error") = false /\
  printable (JArr [JNum 1%Z; field auth_odd_error "error"]) = false.
Proof. vm_compute. repeat split; reflexivity. Qed.

(** Cutting counts units, not bytes: a Cyrillic letter is two bytes and
    one unit, an emoji four bytes and two units, and a cut inside the
    emoji leaves the first half of its pair. *)
Example js_slice_run :
  js_length "ыыы" = 3 /\
  js_slice 2 "ыыы" = "ыы" /\
  js_length "a😀" = 3 /\
  js_slice 3 "a😀b" = "a😀" /\
  js_slice 2 "a😀b" =
    String "a" (String (ascii_of_nat 237) (String (ascii_of_nat 160)
                  (String (ascii_of_nat 189) EmptyString))).
Proof. vm_compute. repeat split; reflexivity. Qed.

(** A whole visit, step by step: the page after sign-in, and after a
    paid purchase of the first pack. *)
Example visit_signed_in :
  let st := startup visit page ∅ in
  sessionToken st = JStr "s3ss10n" /\
  balanceText st = "3 раскладов" /\
  refLinkValue st = "https://t.me/astra?start=7" /\
  packs st = [mkRow "<div>5 раскладов</div><div>50 ⭐</div>" (JStr "pack_5")] /\
  storage st !! SESSION_KEY = Some "s3ss10n" /\
  errorHidden st = true /\
  log st = [EvReady; EvExpand;
            EvFetch "https://api.astrabotai.online/api/auth"
                    [("initData", JStr "query_id=AAE&user=7")]].
Proof. vm_compute. repeat split; reflexivity. Qed.

Example visit_paid :
  let st := run visit [ActAuth; ActClick 0; ActDeliver Callback "paid"]
                (boot page ∅) in
  balanceText st = "8 раскладов" /\
  listeners st = [Callback; Promise] /\
  refresh_calls (log st) = 1 /\
  requests st = 3.
Proof. vm_compute. repeat split; reflexivity. Qed.

(** The older script: a click sends the pack to the bot and closes the
    page, with no request. *)
Example click_pack_miniapp_run :
  log (snd (click_pack_miniapp visit (mkRow "" (JStr "pack_5")) signed_in)) =
  [EvSendData [("action", JStr "buy_pack"); ("pack", JStr "pack_5")]; EvClose].
Proof. reflexivity. Qed.

Lemma granted_in_shop (h : Host Z) :
  invoice_granted (shop h) signed_in (JStr "https://t.me/$inv1").
Proof. eexists _, _, _. repeat split; reflexivity. Qed.

(** A click on a pack before any session exists. *)
Lemma createInvoice_no_session_witness :
  sessionToken page = JNull /\
  exists st',
    createInvoice (offline (Some host)) (JStr "pack_5") page = (Returns tt, st') /\
    log st' = [] /\
    errorHidden st' = false /\
    diagErr st' = "error: no session".
Proof.
  split; [reflexivity |].
  destruct (createInvoice_no_session (offline (Some host)) page (JStr "pack_5") eq_refl)
    as (st' & E & Hlog & _ & Hshown & Hdiag & _).
  exists st'. repeat split; assumption.
Defined.



(** C3 fails as worded: a page load that finds a stored session and
    cannot reach the backend has no credential, and a purchase stops with
    the [no session] error although the session is still in storage. *)
Lemma stored_session_ignored :
  let env := offline (Some host) in
  let st := startup env page stored in
  stored !! SESSION_KEY = Some "s3ss10n" /\
  sessionToken (boot page stored) = JNull /\
  sessionToken st = JNull /\
  storage st !! SESSION_KEY = Some "s3ss10n" /\
  createInvoice env (JStr "pack_5") st =
    (Returns tt, with_errorHidden false (with_diagErr "error: no session" st)) /\
  ~ stored_session_reused.
Proof.
  assert (stored !! SESSION_KEY = Some "s3ss10n") as Hstored
    by (vm_compute; reflexivity).
  split; [exact Hstored |].
  split; [reflexivity |].
  split; [vm_compute; reflexivity |].
  split; [vm_compute; reflexivity |].
  split; [apply createInvoice_stops; vm_compute; reflexivity |].
  intros claim.
  specialize (claim Z page stored "s3ss10n" Hstored). discriminate claim.
Qed.

(** Two loads of the same page, with and without a stored session. *)
Lemma stored_session_never_read_witness :
  sessionToken (boot page stored) = JNull /\
  same_but_storage (startup visit page stored) (startup visit page ∅) /\
  sessionToken (startup visit page stored) = JStr "s3ss10n".
Proof.
  destruct (stored_session_never_read visit page stored) as (Hboot & Hsame & _).
  split; [exact Hboot |]. split; [apply Hsame | vm_compute; reflexivity].
Defined.

(** C4 fails as worded: a balance answer with ok:false surfaces nothing. *)
Lemma refused_balance_is_silent :
  let env := always (Some host) not_ok_text not_ok in
  let st' := snd (refreshBalance env signed_in) in
  answered env signed_in not_ok /\
  truthy (field not_ok "ok") = false /\
  diagErr signed_in = "" /\
  diagErr st' = "" /\
  errorHidden st' = true /\
  ~ every_balance_failure_surfaces.
Proof.
  split; [eexists _, _; split; reflexivity |].
  do 4 (split; [vm_compute; reflexivity |]).
  intros claim.
  destruct (claim Z engine (always (Some host) not_ok_text not_ok) signed_in eq_refl) as (text & _ & E).
  - right. exists not_ok. split; [eexists _, _; split; reflexivity |].
    split; reflexivity.
  - vm_compute in E. discriminate E.
Qed.

(** A balance refresh while the network is down. *)
Lemma refreshBalance_failure_witness :
  let env := offline (Some host) in
  truthy (sessionToken signed_in) = true /\
  refreshBalance env signed_in =
    (Returns tt, snd (refreshBalance env signed_in)) /\
  diagErr (snd (refreshBalance env signed_in)) =
    "error: balance refresh failed: Failed to fetch" /\
  balanceText (snd (refreshBalance env signed_in)) = balanceText signed_in.
Proof.
  split; [reflexivity |].
  destruct (refreshBalance_failure (offline (Some host)) signed_in eq_refl)
    as (st' & E & _ & _ & Hfail & _).
  rewrite E. simpl. split; [reflexivity |].
  apply (Hfail (mkError "Failed to fetch" "TypeError: Failed to fetch")).
  reflexivity.
Defined.

(** An invoice on a host that cannot open invoices. *)
Lemma createInvoice_fallback_link_witness :
  let env := shop host_no_invoice in
  openInvoice host_no_invoice = None /\
  exists st',
    createInvoice env (JStr "pack_5") signed_in = (Returns tt, st') /\
    log st' = [invoice_request signed_in (JStr "pack_5");
               EvOpenTelegramLink (JStr "https://t.me/$inv1")] /\
    listeners st' = [] /\
    errorHidden st' = true.
Proof.
  split; [reflexivity |].
  destruct (createInvoice_fallback_link (shop host_no_invoice) signed_in (JStr "pack_5")
              (JStr "https://t.me/$inv1") host_no_invoice
              eq_refl (granted_in_shop host_no_invoice) eq_refl eq_refl)
    as (st' & E & Hlog & Hl & _ & Hh & _).
  exists st'. repeat split; assumption.
Defined.

(** C5 fails as worded: on a host without [openInvoice] whose link opener
    throws, the fallback ends in the outer [catch], which shows the error
    panel and writes the diagnostic. *)
Lemma fallback_link_throws :
  let env := shop host_bad_link in
  let st' := snd (createInvoice env (JStr "pack_5") signed_in) in
  openInvoice host_bad_link = None /\
  errorHidden signed_in = true /\
  errorHidden st' = false /\
  diagErr st' = "error: invoice error: WebAppTgUrlInvalid" /\
  listeners st' = [] /\
  ~ fallback_surfaces_no_error.
Proof.
  split; [reflexivity |]. split; [reflexivity |].
  split; [vm_compute; reflexivity |]. split; [vm_compute; reflexivity |].
  split; [vm_compute; reflexivity |].
  intros claim.
  destruct (claim Z engine (shop host_bad_link) signed_in (JStr "pack_5")
              (JStr "https://t.me/$inv1") host_bad_link
              eq_refl (granted_in_shop host_bad_link) eq_refl eq_refl)
    as (_ & Hh & _).
  vm_compute in Hh. discriminate Hh.
Qed.

(** The backend refuses the init data. *)
Lemma auth_refused_witness :
  let env := always (Some host) auth_denied_text auth_denied in
  truthy (field auth_denied "ok") = false /\
  exists st',
    auth env page = (Returns tt, st') /\
    errorHidden st' = false /\
    diagErr st' = "error: bad_signature (init data expired)" /\
    sessionToken st' = JNull.
Proof.
  split; [reflexivity |].
  assert (answered (always (Some host) auth_denied_text auth_denied) page auth_denied) as Hans
    by (eexists _, _; split; reflexivity).
  destruct (auth_refused (always (Some host) auth_denied_text auth_denied) page host auth_denied
              eq_refl eq_refl Hans eq_refl eq_refl)
    as [Hshown _].
  destruct (Hshown eq_refl eq_refl) as (st' & E & Hh & Hdiag & _ & Htok & _).
  exists st'. repeat split; assumption.
Defined.

(** C6 fails as worded: a refusal whose error code is an object with a
    [toString] of its own makes [auth] reject while it builds the
    diagnostic; the error panel stays hidden and nothing is written. *)
Lemma refused_auth_rejects :
  let env := always (Some host) auth_odd_error_text auth_odd_error in
  truthy (field auth_odd_error "ok") = false /\
  printable (field auth_odd_error "error") = false /\
  fst (auth env page) = Throws unprintable /\
  errorHidden (snd (auth env page)) = true /\
  diagErr (snd (auth env page)) = "" /\
  ~ refused_auth_always_shown.
Proof.
  split; [vm_compute; reflexivity |]. split; [vm_compute; reflexivity |].
  split; [vm_compute; reflexivity |]. split; [vm_compute; reflexivity |].
  split; [vm_compute; reflexivity |].
  intros claim.
  destruct (claim Z engine (always (Some host) auth_odd_error_text auth_odd_error)
              page host auth_odd_error eq_refl eq_refl
              (ex_intro _ _ (ex_intro _ _ (conj eq_refl eq_refl))) eq_refl eq_refl)
    as (Hh & _).
  vm_compute in Hh. discriminate Hh.
Qed.

(** The user closes the invoice. *)
Lemma unpaid_status_no_refresh_witness :
  let st := with_listeners [Callback] signed_in in
  Callback ∈ listeners st /\
  exists st',
    deliver (shop host) Callback "cancelled" st = (Returns tt, st') /\
    errorHidden st' = false /\
    diagErr st' = "error: invoice cancelled" /\
    log st' = log st.
Proof.
  assert (Callback ∈ listeners (with_listeners [Callback] signed_in)) as Hin
    by (simpl; apply list_elem_of_here).
  split; [exact Hin |].
  destruct (unpaid_status_no_refresh (shop host) _ Callback "cancelled" Hin) as [Hbad _].
  destruct (Hbad (or_introl eq_refl)) as (st' & E & Hshown & Hdiag & Hlog & _).
  exists st'. repeat split; assumption.
Defined.

(** The page opened in a plain browser. *)
Lemma auth_without_host_witness :
  tg (offline None) = None /\
  exists st',
    auth (offline None) page = (Returns tt, st') /\
    errorHidden st' = false /\
    log st' = [].
Proof.
  split; [reflexivity |].
  destruct (auth_without_host (offline None) page I) as (st' & E & Hshown & Hlog & _).
  exists st'. repeat split; assumption.
Defined.

Lemma visit_session_typed : session_typed visit.
Proof.
  intros n r raw data Hnet Hbody.
  destruct n as [| [| n]]; simpl in Hnet; injection Hnet as <-;
    simpl in Hbody; injection Hbody as _ <-.
  - right. exists "s3ss10n". vm_compute. reflexivity.
  - left. vm_compute. reflexivity.
  - left. vm_compute. reflexivity.
Qed.

(** A whole visit: sign in, buy the first pack, pay. *)
Lemma session_never_empty_witness :
  let st := run visit [ActAuth; ActClick 0; ActDeliver Callback "paid"]
                (boot page stored) in
  session_typed visit /\
  token_string (sessionToken st) /\
  credentials_ok (log st) /\
  sessionToken st = JStr "s3ss10n".
Proof.
  split; [exact visit_session_typed |].
  destruct (session_never_empty visit page stored
              [ActAuth; ActClick 0; ActDeliver Callback "paid"])
    as (_ & _ & Hstring & Hlog & _).
  split; [exact (Hstring visit_session_typed) |].
  split; [exact Hlog | vm_compute; reflexivity].
Defined.

(** C9 fails as worded: a session sent as the number 123 is kept as
    that number, which is no string, and is sent as the credential of the
    next balance request. *)
Lemma number_session_kept :
  let env := always (Some host) auth_number_session_text auth_number_session in
  let st := run env [ActAuth; ActRefresh] (boot page ∅) in
  sessionToken st = JNum 123%Z /\
  ~ token_string (sessionToken st) /\
  EvFetch (API ++ "/api/balance") [("session", JNum 123%Z)] ∈ log st /\
  storage st !! SESSION_KEY = Some "123" /\
  ~ token_always_string.
Proof.
  assert (sessionToken
            (run (always (Some host) auth_number_session_text auth_number_session)
                 [ActAuth; ActRefresh] (boot page ∅)) = JNum 123%Z) as Htok
    by (vm_compute; reflexivity).
  assert (~ token_string (@JNum Z 123%Z)) as Hno
    by (intros [N | (s & N & _)]; discriminate N).
  split; [exact Htok |]. split; [rewrite Htok; exact Hno |].
  split.
  { assert (log (run (always (Some host) auth_number_session_text auth_number_session)
                     [ActAuth; ActRefresh] (boot page ∅)) =
            [EvReady; EvExpand;
             EvFetch (API_BASE_URL ++ "/api/auth") [("initData", JStr "query_id=AAE&user=7")];
             EvRefreshBalance;
             EvFetch (API ++ "/api/balance") [("session", JNum 123%Z)]]) as ->
      by (vm_compute; reflexivity).
    do 4 apply list_elem_of_further. apply list_elem_of_here. }
  split; [vm_compute; reflexivity |].
  intros claim.
  specialize (claim Z engine
                (always (Some host) auth_number_session_text auth_number_session)
                page ∅ [ActAuth; ActRefresh]).
  rewrite Htok in claim. exact (Hno claim).
Qed.

(** The backend accepts the init data but sends an empty session. *)
Lemma auth_ok_without_session_witness :
  let env := always (Some host) auth_no_session_text auth_no_session in
  truthy (field auth_no_session "ok") = true /\
  truthy (field auth_no_session "session") = false /\
  exists st',
    auth env page = (Returns tt, st') /\
    sessionToken st' = JNull /\
    balanceText st' = "3 раскладов" /\
    refLinkValue st' = "—" /\
    packs st' = [mkRow "<div>5 раскладов</div><div>50 ⭐</div>" (JStr "pack_5")] /\
    exists st3,
      createInvoice env (JStr "pack_5") (run env [ActClick 0] st') = (Returns tt, st3) /\
      diagErr st3 = "error: no session".
Proof.
  split; [vm_compute; reflexivity |]. split; [vm_compute; reflexivity |].
  assert (answered (always (Some host) auth_no_session_text auth_no_session) page auth_no_session) as Hans
    by (eexists _, _; split; reflexivity).
  assert (Forall (pack_ok (Num := Z)) [pack1]) as Hwf
    by (repeat constructor).
  destruct (auth_ok_without_session (always (Some host) auth_no_session_text auth_no_session) page host
              auth_no_session eq_refl eq_refl Hans eq_refl eq_refl)
    as (r & st' & E & Htok & _ & Hshow & _ & Hlater).
  destruct (Hshow eq_refl) as [Hbal Hshow'].
  destruct (Hshow' eq_refl) as [Href Hrows].
  destruct (Hrows [pack1] eq_refl Hwf) as [Hpacks Hres].
  assert (truthy (field auth_no_session "support_link") = true ->
          printable (field auth_no_session "support_link") = true) as Hsup
    by (intros _; vm_compute; reflexivity).
  rewrite (Hres Hsup) in E.
  exists st'. split; [exact E |]. split; [exact Htok |].
  split; [rewrite Hbal; vm_compute; reflexivity |].
  split; [rewrite Href; vm_compute; reflexivity |].
  split; [rewrite Hpacks; vm_compute; reflexivity |].
  destruct (Hlater [ActClick 0] (JStr "pack_5") eq_refl) as (st3 & E3 & _ & Hdiag & _).
  exists st3. split; assumption.
Defined.

(** C10 fails as worded: with a [null] among the packs [auth] rejects
    after the first row, and with a balance that cannot be printed it
    rejects before anything is shown. *)
Lemma display_update_stops :
  let env := always (Some host) auth_null_pack_text auth_null_pack in
  let env' := always (Some host) auth_odd_balance_text auth_odd_balance in
  truthy (field auth_null_pack "ok") = true /\
  truthy (field auth_null_pack "session") = false /\
  fst (auth env page) = Throws (null_read "spreads") /\
  packs (snd (auth env page)) =
    [mkRow "<div>5 раскладов</div><div>50 ⭐</div>" (JStr "pack_5")] /\
  fst (auth env' page) = Throws unprintable /\
  balanceText (snd (auth env' page)) = "" /\
  packs (snd (auth env' page)) = [] /\
  ~ display_always_updated.
Proof.
  do 7 (split; [vm_compute; reflexivity |]).
  intros claim.
  destruct (claim Z engine (always (Some host) auth_null_pack_text auth_null_pack)
              page host auth_null_pack [pack1; JNull; pack1] eq_refl eq_refl
              (ex_intro _ _ (ex_intro _ _ (conj eq_refl eq_refl)))
              eq_refl eq_refl eq_refl)
    as (_ & _ & Hpacks & _).
  apply (f_equal length) in Hpacks. vm_compute in Hpacks. discriminate Hpacks.
Qed.

(** * The further properties at work *)

Lemma answered_always (h : option (Host Z)) (raw : string) (data : JsValue Z)
      (st : State Z) :
  answered (always h raw data) st data.
Proof. eexists _, _. split; reflexivity. Qed.

Lemma refreshBalance_no_session_witness :
  truthy (sessionToken page) = false /\
  exists st',
    refreshBalance visit page = (Returns tt, st') /\
    requests st' = 0 /\ balanceText st' = "".
Proof.
  split; [reflexivity |].
  destruct (refreshBalance_no_session visit page eq_refl)
    as (st' & E & _ & Hr & Hb & _).
  exists st'. repeat split; assumption.
Defined.

Lemma refreshBalance_updates_balance_witness :
  truthy (field balance_ok "ok") = true /\
  exists st',
    refreshBalance (always (Some host) balance_ok_text balance_ok) signed_in
      = (Returns tt, st') /\
    balanceText st' = "8 раскладов".
Proof.
  split; [vm_compute; reflexivity |].
  destruct (refreshBalance_updates_balance
              (always (Some host) balance_ok_text balance_ok) signed_in balance_ok
              eq_refl (answered_always _ _ _ _) eq_refl)
    as (st' & E & _ & _ & _ & Hb & _).
  exists st'. split; [exact E |]. rewrite Hb. vm_compute. reflexivity.
Defined.

Lemma createInvoice_refused_witness :
  truthy (field not_ok "ok") = false /\
  exists st',
    createInvoice (always (Some host) not_ok_text not_ok) (JStr "pack_5") signed_in
      = (Returns tt, st') /\
    errorHidden st' = false /\
    diagErr st' = "error: invoice failed".
Proof.
  split; [vm_compute; reflexivity |].
  destruct (createInvoice_refused
              (always (Some host) not_ok_text not_ok) signed_in (JStr "pack_5") not_ok
              eq_refl (answered_always _ _ _ _) eq_refl (or_introl eq_refl))
    as (st' & E & Hh & Hd & _).
  exists st'. split; [exact E |]. split; [exact Hh |].
  rewrite Hd. vm_compute. reflexivity.
Defined.

Lemma createInvoice_transport_failure_witness :
  exists st',
    createInvoice (offline (Some host)) (JStr "pack_5") signed_in = (Returns tt, st') /\
    errorHidden st' = false /\
    diagErr st' = "error: invoice error: Failed to fetch".
Proof.
  destruct (createInvoice_transport_failure (offline (Some host)) signed_in
              (JStr "pack_5") (mkError "Failed to fetch" "TypeError: Failed to fetch")
              eq_refl eq_refl)
    as (st' & E & Hh & Hd & _).
  exists st'. repeat split; assumption.
Defined.

Lemma createInvoice_open_throws_witness :
  exists st',
    createInvoice (shop host_broken) (JStr "pack_5") signed_in = (Returns tt, st') /\
    errorHidden st' = false /\
    listeners st' = [] /\
    diagErr st' = "error: openInvoice failed: WebAppMethodUnsupported".
Proof.
  destruct (createInvoice_open_throws (shop host_broken) signed_in (JStr "pack_5")
              (JStr "https://t.me/$inv1") host_broken
              (fun _ => OpenThrows unsupported) unsupported
              eq_refl (granted_in_shop host_broken) eq_refl eq_refl eq_refl)
    as (st' & E & Hh & _ & Hl & Hd).
  exists st'. repeat split; assumption.
Defined.

Lemma auth_null_body_rejects_witness :
  exists st',
    auth (always (Some host) "null" JNull) page
      = (Throws (null_read "ok"), st') /\
    errorHidden st' = true /\
    sessionToken st' = JNull.
Proof.
  destruct (auth_null_body_rejects (always (Some host) "null" JNull) page host JNull
              eq_refl eq_refl (answered_always _ _ _ _) eq_refl)
    as (st' & E & Hh & Ht & _).
  exists st'. repeat split; assumption.
Defined.

Lemma auth_fetch_failure_witness :
  exists st',
    auth (offline (Some host)) page = (Returns tt, st') /\
    errorHidden st' = false /\
    diagErr st' = "error: fetch auth failed: Failed to fetch".
Proof.
  destruct (auth_fetch_failure (offline (Some host)) page host
              (mkError "Failed to fetch" "TypeError: Failed to fetch")
              eq_refl eq_refl eq_refl)
    as (st' & E & Hh & Hd & _).
  exists st'. repeat split; assumption.
Defined.

Lemma auth_bad_json_witness :
  exists st',
    auth gateway_error page = (Returns tt, st') /\
    errorHidden st' = false /\
    diagErr st' =
      "error: bad json (status 502): Unexpected token '<'; preview: <html>Bad Gateway</html>".
Proof.
  destruct (auth_bad_json gateway_error page host
              (mkResponse 502%Z (BodyText "<html>Bad Gateway</html>" (inl bad_token)))
              "<html>Bad Gateway</html>" bad_token
              eq_refl eq_refl eq_refl (or_intror eq_refl))
    as (st' & preview & E & Hh & Hd & _ & _ & Hwhole & _).
  exists st'. split; [exact E |]. split; [exact Hh |].
  rewrite Hd, Hwhole; [vm_compute; reflexivity | discriminate | vm_compute; lia].
Defined.


Lemma answered_first_visit : answered visit page auth_ok.
Proof. eexists _, _. split; reflexivity. Qed.

Lemma auth_signs_in_witness :
  truthy (field auth_ok "session") = true /\
  exists r st',
    auth visit page = (r, st') /\
    sessionToken st' = JStr "s3ss10n" /\
    storage st' !! SESSION_KEY = Some "s3ss10n" /\
    balanceText st' = "3 раскладов".
Proof.
  split; [vm_compute; reflexivity |].
  destruct (auth_signs_in visit page host auth_ok
              eq_refl eq_refl answered_first_visit eq_refl eq_refl)
    as (r & st' & E & Ht & Hs & _ & Hshow).
  destruct (Hshow eq_refl) as [Hb _].
  exists r, st'. split; [exact E |].
  split; [rewrite Ht; vm_compute; reflexivity |].
  split; [rewrite Hs; vm_compute; reflexivity |].
  rewrite Hb. vm_compute. reflexivity.
Defined.


Lemma renderPacks_stops_at_null_witness :
  renderPacks (JArr [pack1; JNull; pack1]) page =
    (Throws (null_read "spreads"),
     with_packs [mkRow "<div>5 раскладов</div><div>50 ⭐</div>" (JStr "pack_5")] page).
Proof.
  assert (Forall (pack_ok (Num := Z)) [pack1]) as Hgood
    by (repeat constructor).
  rewrite (renderPacks_stops_at_null [pack1] [pack1] JNull page Hgood eq_refl).
  vm_compute. reflexivity.
Defined.

Lemma auth_stops_at_bad_packages_witness :
  field auth_bad_packs "packages" = JStr "none" /\
  exists st',
    auth (always (Some host) auth_bad_packs_text auth_bad_packs) page
      = (Throws (not_function "packs.forEach"), st') /\
    sessionToken st' = JStr "s3ss10n" /\
    balanceText st' = "3 раскладов" /\
    packs st' = [] /\
    errorHidden st' = true.
Proof.
  assert (field auth_bad_packs "packages" = JStr "none") as Hpk
    by (vm_compute; reflexivity).
  split; [exact Hpk |].
  assert (forall items, field auth_bad_packs "packages" <> JArr items) as Hnot
    by (intros items; rewrite Hpk; discriminate).
  assert (truthy (field auth_bad_packs "packages") = true) as Htruthy
    by (rewrite Hpk; reflexivity).
  destruct (auth_stops_at_bad_packages
              (always (Some host) auth_bad_packs_text auth_bad_packs) page host
              auth_bad_packs eq_refl eq_refl (answered_always _ _ _ _) eq_refl
              eq_refl eq_refl Htruthy Hnot)
    as (st' & E & Ht & Hb & _ & Hp & _ & Hh).
  exists st'. split; [exact E |].
  split; [rewrite Ht; vm_compute; reflexivity |].
  split; [rewrite Hb; vm_compute; reflexivity |].
  split; assumption.
Defined.

Lemma pack_button_buys_its_pack_witness :
  let st1 := snd (renderPacks (JArr [pack1]) signed_in) in
  exists evs,
    log (snd (perform (shop host) (ActClick 0) st1)) =
      EvFetch "https://api.astrabotai.online/api/invoice"
              [("session", JStr "s3ss10n"); ("pack_key", JStr "pack_5")] :: evs.
Proof.
  assert (Forall (pack_ok (Num := Z)) [pack1]) as Hwf
    by (repeat constructor).
  destruct (pack_button_buys_its_pack (shop host) signed_in [pack1] 0 pack1 host
              Hwf eq_refl eq_refl eq_refl) as (_ & evs & Hlog).
  exists evs. rewrite Hlog. vm_compute. reflexivity.
Defined.

Lemma answered_full : answered (always (Some host) auth_full_text auth_full) page auth_full.
Proof. apply answered_always. Qed.

Lemma support_link_from_auth_witness :
  let env := always (Some host) auth_full_text auth_full in
  field auth_full "support_link" = JStr "https://t.me/astra_support" /\
  log (snd (click_support env (snd (auth env page)))) =
    (log (snd (auth env page))
     ++ [EvOpenTelegramLink (JStr "https://t.me/astra_support")])%list.
Proof.
  assert (field auth_full "support_link" = JStr "https://t.me/astra_support") as Hsup
    by (vm_compute; reflexivity).
  split; [exact Hsup |].
  assert (Forall (pack_ok (Num := Z)) [pack1]) as Hwf
    by (repeat constructor).
  assert ("https://t.me/astra_support" <> "") as Hne by discriminate.
  assert (or_else (field auth_full "packages") (JArr []) = JArr [pack1]) as Hpk
    by (vm_compute; reflexivity).
  destruct (support_link_from_auth (always (Some host) auth_full_text auth_full) page
              host auth_full [pack1] "https://t.me/astra_support"
              eq_refl eq_refl answered_full eq_refl eq_refl eq_refl Hpk Hwf Hsup Hne)
    as [_ Hlog].
  exact Hlog.
Defined.

Lemma copy_label_restored_witness :
  let ch' := click_copy (fun _ => None) with_link chrome in
  refLinkValue with_link = "https://t.me/astra?start=7" /\
  copyLabel ch' = "Скопировано" /\
  clipboard ch' = Some "https://t.me/astra?start=7" /\
  fire_timer ch' = mkChrome "Скопировать" (Some "https://t.me/astra?start=7") [].
Proof.
  split; [reflexivity |].
  assert (refLinkValue with_link <> "") as Hne by discriminate.
  assert (refLinkValue with_link <> "—") as Hdash by discriminate.
  destruct (copy_label_restored (fun _ => None) with_link chrome Hne Hdash eq_refl)
    as [Hlabel Hfired].
  split; [exact Hlabel |]. split; [reflexivity | exact Hfired].
Defined.

Lemma error_panel_stays_witness :
  let st := with_errorHidden false signed_in in
  errorHidden st = false /\
  errorHidden (session (shop host)
                 [Act (ActInvoice (JStr "pack_5")); Act (ActDeliver Callback "paid");
                  Support; Act ActAuth] st) = false.
Proof.
  split; [reflexivity |].
  apply (error_panel_stays (shop host)). reflexivity.
Defined.

Lemma only_auth_signs_in_witness :
  let gs := [Act (ActInvoice (JStr "pack_5")); Act (ActDeliver Callback "paid");
             Support; Act ActRefresh] in
  sessionToken (session (shop host) gs signed_in) = JStr "s3ss10n" /\
  storage (session (shop host) gs signed_in) = ∅.
Proof.
  apply (only_auth_signs_in (shop host)
           [Act (ActInvoice (JStr "pack_5")); Act (ActDeliver Callback "paid");
            Support; Act ActRefresh] signed_in).
  reflexivity.
Defined.

Lemma paid_shows_new_balance_witness :
  exists st2,
    deliver (shop host) Callback "paid"
            (snd (createInvoice (shop host) (JStr "pack_5") signed_in))
      = (Returns tt, st2) /\
    balanceText st2 = "8 раскладов".
Proof.
  assert (answered (shop host)
            (snd (createInvoice (shop host) (JStr "pack_5") signed_in)) balance_ok)
    as Hans.
  { exists (mkResponse 200%Z (BodyText balance_ok_text (inr balance_ok))), balance_ok_text.
    split; [vm_compute; reflexivity | reflexivity]. }
  destruct (paid_shows_new_balance (shop host) signed_in (JStr "pack_5")
              (JStr "https://t.me/$inv1") balance_ok host (fun _ => OpenReturns true) true
              eq_refl (granted_in_shop host) eq_refl eq_refl eq_refl Hans eq_refl eq_refl)
    as (st2 & E & Hb & _).
  exists st2. split; [exact E |]. rewrite Hb. vm_compute. reflexivity.
Defined.

Lemma copy_follows_auth_witness :
  let st1 := snd (auth visit page) in
  field auth_ok "ref_link" = JStr "https://t.me/astra?start=7" /\
  clipboard (click_copy (fun _ => None) st1 chrome) = Some "https://t.me/astra?start=7".
Proof.
  assert (field auth_ok "ref_link" = JStr "https://t.me/astra?start=7") as Href
    by (vm_compute; reflexivity).
  split; [exact Href |].
  destruct (copy_follows_auth visit (fun _ => None) page chrome host auth_ok
              eq_refl eq_refl answered_first_visit eq_refl eq_refl) as [_ Hcopy].
  apply Hcopy; [exact Href | discriminate | discriminate | reflexivity].
Defined.
